(** * GrimRepo audit scoring: structure and community-standards analyzers

    A shallow embedding of [src/types.ts] and of the two analyzer modules
    found in [src/community.ts] (the community-standards helper and the
    repository-structure bootstrapper), with the properties of their
    weighted scores.

    Modelling conventions.
    - A JavaScript string is a [string] holding its UTF-8 bytes.
      [toLowerCase] maps the letters [A]..[Z] to [a]..[z] and the Kelvin
      sign (U+212A) to [k], the only characters whose lower case lies in
      ASCII; the bytes of any other character are kept, its lower case
      being outside ASCII as well.  The result is exact on text made of
      ASCII characters and Kelvin signs, and compares with the ASCII names
      of the registries as the result of the source does on any text.
    - [new Set(xs)] is a [gset string]; [set.has(x)] is [has set x].
    - [array.push(x)] appends at the end; a [for ... of] loop over a
      registry is a [fold_left] of the loop body over the registry.
    - Text outside ASCII in a string literal of the source (the signs
      that open the recommendation lines) is held as its UTF-8 bytes.
    - JavaScript numbers holding points are integers ([Z]); the quotient
      [earnedPoints / maxPoints] and its product with [100] are exact
      rationals ([Q]) and [Math.round q] is [Qfloor (q + 1/2)].  The
      maximal points are 42 and 46, for which the exact ratio is never a
      tie ([no_rounding_tie]) and stays at least 1/46 away from one, far
      more than the error of the double-precision evaluation. *)

From Stdlib Require Import ZArith QArith Qround Lia List Ascii String Bool.
From stdpp Require Import base decidable list strings gmap.

Local Open Scope string_scope.
Local Open Scope Z_scope.

(** ** JavaScript string and number primitives *)

Module Js.

Definition toLowerChar (c : ascii) : ascii :=
  let n := N_of_ascii c in
  if (N.leb 65 n && N.leb n 90)%bool then ascii_of_N (n + 32)%N else c.

(** [s.toLowerCase()].  The three bytes E2 84 AA are the Kelvin sign,
    whose lower case is the letter [k]; no other character outside ASCII
    has a lower case made of ASCII characters only. *)
Fixpoint toLowerCase (s : string) : string :=
  match s with
  | EmptyString => EmptyString
  | String c s' =>
      match s' with
      | String d (String e s'') =>
          if (Ascii.eqb c "226" && Ascii.eqb d "132" && Ascii.eqb e "170")%bool
          then String "k" (toLowerCase s'')
          else String (toLowerChar c) (toLowerCase s')
      | _ => String (toLowerChar c) (toLowerCase s')
      end
  end.

(** [s.replace(/\\/g, '/')]: every backslash becomes a forward slash. *)
Fixpoint replaceBackslashes (s : string) : string :=
  match s with
  | EmptyString => EmptyString
  | String c s' =>
      String (if Ascii.eqb c "\" then "/"%char else c) (replaceBackslashes s')
  end.

(** [s.replace(/\/+$/, '')]: the maximal run of slashes at the end of the
    string is removed. *)
Fixpoint stripTrailingSlashes (s : string) : string :=
  match s with
  | EmptyString => EmptyString
  | String c s' =>
      match stripTrailingSlashes s' with
      | EmptyString => if Ascii.eqb c "/" then EmptyString else String c EmptyString
      | r => String c r
      end
  end.

(** [s.startsWith(p)] *)
Definition startsWith (s p : string) : bool := String.prefix p s.

(** [set.has(x)] *)
Definition has (set : gset string) (x : string) : bool := bool_decide (x ∈ set).

(** [xs.some(pred)] *)
Definition some {A} (xs : list A) (pred : A -> bool) : bool := existsb pred xs.

(** [Math.round(q)]: nearest integer, ties towards plus infinity. *)
Definition Math_round (q : Q) : Z := Qfloor (q + (1 # 2)).

(** [s.includes(sub)] *)
Fixpoint includes (s sub : string) : bool :=
  String.prefix sub s
  || match s with
     | EmptyString => false
     | String _ s' => includes s' sub
     end.

(** [s.split(sep)] for a separator of one character: the pieces between
    the occurrences of [sep], the empty ones included. *)
Fixpoint split (s : string) (sep : ascii) : list string :=
  match s with
  | EmptyString => [EmptyString]
  | String c s' =>
      if Ascii.eqb c sep then EmptyString :: split s' sep
      else match split s' sep with
           | piece :: pieces => String c piece :: pieces
           | [] => [String c EmptyString]
           end
  end.

(** [parts.join(sep)] *)
Fixpoint join (parts : list string) (sep : string) : string :=
  match parts with
  | [] => EmptyString
  | [part] => part
  | part :: rest => part ++ sep ++ join rest sep
  end.

(** The two fields of [window.location] that the scripts read. *)
Record Location : Type := mkLocation { hostname : string; pathname : string }.

End Js.

(** ** [src/types.ts] *)

Inductive Priority : Type := required | recommended | optional.

Module DirectoryCheck.
Record t : Type := mk
  { path : string; purpose : string; priority : Priority; template : option string }.
End DirectoryCheck.

Module RepoStructure.
Record t : Type := mk
  { missingDirs : list DirectoryCheck.t; presentDirs : list string; score : Z }.
End RepoStructure.

Module FileCheck.
Record t : Type := mk
  { path : string; purpose : string; priority : Priority; template : option string }.
End FileCheck.

Module CommunityStandards.
Record t : Type := mk
  { missingFiles : list FileCheck.t; presentFiles : list string; score : Z }.
End CommunityStandards.

Inductive Platform : Type := gitlab | github | bitbucket | unknown.

Module PlatformContext.
Record t : Type := mk
  { platform : Platform; repoOwner : string; repoName : string;
    currentPath : string }.
End PlatformContext.

(** ** The repository-structure bootstrapper *)

Module Bootstrap.
Import DirectoryCheck.

Definition STANDARD_DIRECTORIES : list DirectoryCheck.t :=
  [ mk "src/" "Source code" required
      (Some "# Source Code

Main application source code goes here.")
  ; mk "tests/" "Test files" required
      (Some "# Tests

Test suites and test utilities go here.")
  ; mk "docs/" "Documentation" recommended
      (Some "# Documentation

Detailed documentation, guides, and API references.")
  ; mk "examples/" "Example code" recommended
      (Some "# Examples

Usage examples and sample applications.")
  ; mk ".gitlab/" "GitLab CI/CD config" optional None
  ; mk ".github/" "GitHub-specific config" optional None
  ; mk "scripts/" "Build and automation scripts" recommended None
  ; mk ".well-known/" "RFC-compliant metadata" recommended None ].

Definition normalizePath (path : string) : string :=
  Js.stripTrailingSlashes (Js.toLowerCase path).

Definition getPriorityWeight (priority : Priority) : Z :=
  match priority with
  | required => 10
  | recommended => 5
  | optional => 1
  end.

(** One iteration of the scoring loop; the state is
    [(maxPoints, earnedPoints)]. *)
Definition scoreStep (present : list string) (acc : Z * Z) (dir : DirectoryCheck.t)
  : Z * Z :=
  let '(maxPoints, earnedPoints) := acc in
  let points := getPriorityWeight (priority dir) in
  let maxPoints := maxPoints + points in
  let normalized := normalizePath (path dir) in
  let isPresent := Js.some present (fun p => String.eqb (normalizePath p) normalized) in
  if isPresent then (maxPoints, earnedPoints + points) else (maxPoints, earnedPoints).

Definition structurePoints (present : list string) : Z * Z :=
  fold_left (scoreStep present) STANDARD_DIRECTORIES (0, 0).

Definition calculateStructureScore
  (missing : list DirectoryCheck.t) (present : list string) : Z :=
  let '(maxPoints, earnedPoints) := structurePoints present in
  if 0 <? maxPoints
  then Js.Math_round ((inject_Z earnedPoints / inject_Z maxPoints) * 100)
  else 0.

(** One iteration of the analysis loop; the state is [(missing, present)]. *)
Definition analyzeStep (pathSet : gset string)
  (acc : list DirectoryCheck.t * list string) (dir : DirectoryCheck.t)
  : list DirectoryCheck.t * list string :=
  let '(missing, present) := acc in
  let normalized := normalizePath (path dir) in
  if Js.has pathSet normalized
  then (missing, (present ++ [path dir])%list)
  else ((missing ++ [dir])%list, present).

Definition analyzeStructure (existingPaths : list string) : RepoStructure.t :=
  let pathSet : gset string := list_to_set (map normalizePath existingPaths) in
  let '(missing, present) :=
    fold_left (analyzeStep pathSet) STANDARD_DIRECTORIES ([], []) in
  let score := calculateStructureScore missing present in
  RepoStructure.mk missing present score.

(** One iteration of the loop over [structure.missingDirs]; the state is
    the [recommendations] array. *)
Definition recommendStep (recommendations : list string) (missing : DirectoryCheck.t)
  : list string :=
  match priority missing with
  | required =>
      (recommendations
       ++ [("⚠️  Required: Create " ++ path missing ++ " for " ++ purpose missing)%string])%list
  | recommended =>
      (recommendations
       ++ [("💡 Recommended: Add " ++ path missing ++ " for " ++ purpose missing)%string])%list
  | optional => recommendations
  end.

Definition getStructureRecommendations (structure : RepoStructure.t) : list string :=
  let recommendations :=
    fold_left recommendStep (RepoStructure.missingDirs structure) [] in
  let score := RepoStructure.score structure in
  if score =? 100 then (recommendations ++ ["✅ Structure is complete!"])%list
  else if 80 <=? score
  then (recommendations ++ ["✅ Structure is mostly complete"])%list
  else if 60 <=? score
  then (recommendations ++ ["⚠️  Structure needs improvement"])%list
  else (recommendations ++ ["❌ Structure is incomplete"])%list.

End Bootstrap.

(** ** The community-standards helper *)

Module Community.
Import FileCheck.

Definition STANDARD_FILES : list FileCheck.t :=
  [ mk "LICENSE" "License terms" required None
  ; mk "LICENSE.txt" "License terms (alternative)" required None
  ; mk "README.md" "Project overview" required None
  ; mk "CONTRIBUTING.md" "Contribution guidelines" recommended None
  ; mk "CODE_OF_CONDUCT.md" "Community conduct standards" recommended None
  ; mk "SECURITY.md" "Security policies" recommended None
  ; mk "CHANGELOG.md" "Version history" recommended None
  ; mk "MAINTAINERS.md" "Project maintainers" optional None
  ; mk ".well-known/security.txt" "RFC 9116 security contact" recommended None ].

Definition normalizeFilePath (path : string) : string :=
  Js.replaceBackslashes (Js.toLowerCase path).

Definition getPriorityWeight (priority : Priority) : Z :=
  match priority with
  | required => 10
  | recommended => 5
  | optional => 1
  end.

(** First loop of [calculateCommunityScore]; the state is
    [(uniqueFiles, maxPoints)]. *)
Definition maxStep (acc : gset string * Z) (file : FileCheck.t) : gset string * Z :=
  let '(uniqueFiles, maxPoints) := acc in
  if Js.startsWith (path file) "LICENSE" then
    if negb (Js.has uniqueFiles "LICENSE")
    then ({["LICENSE"]} ∪ uniqueFiles, maxPoints + getPriorityWeight (priority file))
    else (uniqueFiles, maxPoints)
  else ({[path file]} ∪ uniqueFiles, maxPoints + getPriorityWeight (priority file)).

Definition communityMaxPoints : Z :=
  snd (fold_left maxStep STANDARD_FILES (∅, 0)).

(** Second loop of [calculateCommunityScore]; the state is [earnedPoints]. *)
Definition earnedStep (present : list string) (earnedPoints : Z) (file : FileCheck.t)
  : Z :=
  let normalized := normalizeFilePath (path file) in
  let isPresent :=
    Js.some present (fun p => String.eqb (normalizeFilePath p) normalized) in
  if isPresent then
    if Js.startsWith (path file) "LICENSE" then
      let alreadyCounted :=
        Js.some present (fun p =>
          negb (String.eqb p (path file))
          && Js.startsWith (normalizeFilePath p) "license") in
      if negb alreadyCounted
      then earnedPoints + getPriorityWeight (priority file)
      else earnedPoints
    else earnedPoints + getPriorityWeight (priority file)
  else earnedPoints.

Definition communityEarnedPoints (present : list string) : Z :=
  fold_left (earnedStep present) STANDARD_FILES 0.

Definition calculateCommunityScore
  (missing : list FileCheck.t) (present : list string) : Z :=
  let maxPoints := communityMaxPoints in
  let earnedPoints := communityEarnedPoints present in
  if 0 <? maxPoints
  then Js.Math_round ((inject_Z earnedPoints / inject_Z maxPoints) * 100)
  else 0.

(** One iteration of the analysis loop; the state is [(missing, present)]
    and the two [continue] statements leave it unchanged. *)
Definition analyzeStep (fileSet : gset string) (hasLicense : bool)
  (acc : list FileCheck.t * list string) (file : FileCheck.t)
  : list FileCheck.t * list string :=
  let '(missing, present) := acc in
  let normalized := normalizeFilePath (path file) in
  if String.eqb (path file) "LICENSE.txt" && hasLicense then acc
  else if String.eqb (path file) "LICENSE" && Js.has fileSet "license.txt" then acc
  else if Js.has fileSet normalized
  then (missing, (present ++ [path file])%list)
  else ((missing ++ [file])%list, present).

Definition analyzeCommunityStandards (existingFiles : list string)
  : CommunityStandards.t :=
  let fileSet : gset string := list_to_set (map normalizeFilePath existingFiles) in
  let hasLicense :=
    Js.has fileSet "license" || Js.has fileSet "license.txt"
    || Js.has fileSet "license.md" in
  let '(missing, present) :=
    fold_left (analyzeStep fileSet hasLicense) STANDARD_FILES ([], []) in
  let score := calculateCommunityScore missing present in
  CommunityStandards.mk missing present score.

(** The source also builds a local array [required] of six names, which
    it never reads. *)
Definition checkRSRCompliance (standards : CommunityStandards.t) : bool :=
  let presentNormalized : gset string :=
    list_to_set (map normalizeFilePath (CommunityStandards.presentFiles standards)) in
  let hasReadme := Js.has presentNormalized "readme.md" in
  let hasLicense :=
    Js.has presentNormalized "license" || Js.has presentNormalized "license.txt" in
  let hasSecurity := Js.has presentNormalized "security.md" in
  let hasContributing := Js.has presentNormalized "contributing.md" in
  let hasCodeOfConduct := Js.has presentNormalized "code_of_conduct.md" in
  hasReadme && hasLicense && hasSecurity && hasContributing && hasCodeOfConduct.

(** One iteration of the loop over [standards.missingFiles]; the state is
    the [recommendations] array. *)
Definition recommendStep (recommendations : list string) (missing : FileCheck.t)
  : list string :=
  match priority missing with
  | required =>
      (recommendations
       ++ [("⚠️  Required: Add " ++ path missing ++ " for " ++ purpose missing)%string])%list
  | recommended =>
      (recommendations
       ++ [("💡 Recommended: Add " ++ path missing ++ " for " ++ purpose missing)%string])%list
  | optional => recommendations
  end.

Definition getCommunityRecommendations (standards : CommunityStandards.t)
  : list string :=
  let recommendations :=
    fold_left recommendStep (CommunityStandards.missingFiles standards) [] in
  let score := CommunityStandards.score standards in
  if score =? 100
  then (recommendations ++ ["✅ Community standards are complete!"])%list
  else if 80 <=? score
  then (recommendations ++ ["✅ Community standards are mostly complete"])%list
  else if 60 <=? score
  then (recommendations ++ ["⚠️  Community standards need improvement"])%list
  else (recommendations ++ ["❌ Community standards are incomplete"])%list.

End Community.

(** ** The entry point: platform detection *)

Module Index.

(** [window.location] is read by the source; here it is an argument. *)
Definition detectPlatform (location : Js.Location) : Platform :=
  let hostname := Js.toLowerCase (Js.hostname location) in
  if Js.includes hostname "gitlab" then gitlab
  else if Js.includes hostname "github" then github
  else if Js.includes hostname "bitbucket" then bitbucket
  else unknown.

(** [parts[0]] and [parts[1]] are read only when [parts] has two entries
    or more. *)
Definition getRepositoryContext (location : Js.Location) : option PlatformContext.t :=
  let platform := detectPlatform location in
  match platform with
  | unknown => None
  | _ =>
      let path := Js.pathname location in
      let parts :=
        List.filter (fun p => Nat.ltb 0 (String.length p)) (Js.split path "/") in
      if Nat.ltb (length parts) 2 then None
      else Some (PlatformContext.mk platform (nth 0 parts "") (nth 1 parts "")
                   ("/" ++ Js.join (skipn 2 parts) "/"))
  end.

End Index.

(** ** Closed forms of the two analysis loops

    The definitions below are not part of the source: they name what the
    loops compute, so that the properties can be stated and proved. *)

Module StructureForm.
Import DirectoryCheck Bootstrap.

Definition pathSetOf (existingPaths : list string) : gset string :=
  list_to_set (map normalizePath existingPaths).

(** The test made by the analysis loop on a registry row. *)
Definition matched (pathSet : gset string) (dir : DirectoryCheck.t) : bool :=
  Js.has pathSet (normalizePath (path dir)).

Definition missingOf (pathSet : gset string) (dirs : list DirectoryCheck.t)
  : list DirectoryCheck.t :=
  List.filter (fun dir => negb (matched pathSet dir)) dirs.

Definition presentOf (pathSet : gset string) (dirs : list DirectoryCheck.t)
  : list string :=
  map path (List.filter (matched pathSet) dirs).

Fixpoint totalWeight (dirs : list DirectoryCheck.t) : Z :=
  match dirs with
  | [] => 0
  | dir :: rest => getPriorityWeight (priority dir) + totalWeight rest
  end.

Fixpoint matchedWeight (pathSet : gset string) (dirs : list DirectoryCheck.t) : Z :=
  match dirs with
  | [] => 0
  | dir :: rest =>
      (if matched pathSet dir then getPriorityWeight (priority dir) else 0)
      + matchedWeight pathSet rest
  end.

Definition scoreOf (earnedPoints : Z) : Z := (200 * earnedPoints + 42) / 84.

Definition Priority_eqb (p q : Priority) : bool :=
  match p, q with
  | required, required | recommended, recommended | optional, optional => true
  | _, _ => false
  end.

(** Number of registry rows of a given priority. *)
Definition countPriority (p : Priority) (dirs : list DirectoryCheck.t) : nat :=
  length (List.filter (fun dir => Priority_eqb (priority dir) p) dirs).

(** A missing row of this kind gets a recommendation line. *)
Definition wanted (dir : DirectoryCheck.t) : bool :=
  negb (Priority_eqb (priority dir) optional).

(** The four closing lines of [getStructureRecommendations]. *)
Definition summaries : list string :=
  [ "✅ Structure is complete!"; "✅ Structure is mostly complete"
  ; "⚠️  Structure needs improvement"; "❌ Structure is incomplete" ].

End StructureForm.

Module CommunityForm.
Import FileCheck Community.

Definition fileSetOf (existingFiles : list string) : gset string :=
  list_to_set (map normalizeFilePath existingFiles).

Section WithMembership.

(** [has name] stands for [fileSet.has(name)]. *)
Variable has : string -> bool.

Definition hasLicenseIn : bool :=
  has "license" || has "license.txt" || has "license.md".

(** The two [continue] tests of the analysis loop. *)
Definition skipped (file : FileCheck.t) : bool :=
  String.eqb (path file) "LICENSE.txt" && hasLicenseIn
  || String.eqb (path file) "LICENSE" && has "license.txt".

Definition matched (file : FileCheck.t) : bool :=
  has (normalizeFilePath (path file)).

Definition missingOf (files : list FileCheck.t) : list FileCheck.t :=
  List.filter (fun file => negb (skipped file) && negb (matched file)) files.

Definition presentOf (files : list FileCheck.t) : list string :=
  map path (List.filter (fun file => negb (skipped file) && matched file) files).

End WithMembership.

Definition scoreOf (earnedPoints : Z) : Z := (200 * earnedPoints + 46) / 92.

(** The names on which the analysis of the registry consults the file set. *)
Definition relevantNames : list string :=
  [ "license"; "license.txt"; "license.md"; "readme.md"; "contributing.md"
  ; "code_of_conduct.md"; "security.md"; "changelog.md"; "maintainers.md"
  ; ".well-known/security.txt" ].

(** The membership test of the set holding the names selected by [sel]. *)
Definition flagsOf (sel : list bool) (name : string) : bool :=
  existsb (String.eqb name) (map fst (List.filter snd (combine relevantNames sel))).

Fixpoint selections (n : nat) : list (list bool) :=
  match n with
  | O => [[]]
  | S n' =>
      (map (cons true) (selections n') ++ map (cons false) (selections n'))%list
  end.

(** [knows present name]: some recorded path normalizes to [name]. *)
Definition knows (present : list string) (name : string) : bool :=
  existsb (String.eqb name) (map normalizeFilePath present).

(** The three spellings that the analyzer accepts as a license file. *)
Definition isLicenseAlias (p : string) : bool :=
  let n := normalizeFilePath p in
  String.eqb n "license" || String.eqb n "license.txt" || String.eqb n "license.md".

Definition isLicenseRow (file : FileCheck.t) : bool :=
  String.eqb (path file) "LICENSE" || String.eqb (path file) "LICENSE.txt".

(** What the analysis yields when the file set holds [license.txt];
    [sel] lists the membership tests in the order of [relevantNames]. *)
Definition licenseTxtCheck (sel : list bool) (missing : list FileCheck.t)
  (present : list string) : bool :=
  if nth 1 sel false then
    forallb (fun p => negb (isLicenseAlias p)) present
    && forallb (fun file => negb (isLicenseRow file)) missing
    && Nat.eqb (length missing + length present) 7
    && negb (knows present "license" || knows present "license.txt")
  else true.

(** The compliance answer read off the membership tests. *)
Definition rsrCheck (sel : list bool) (missing : list FileCheck.t)
  (present : list string) : bool :=
  Bool.eqb
    (knows present "readme.md"
     && (knows present "license" || knows present "license.txt")
     && knows present "security.md"
     && knows present "contributing.md"
     && knows present "code_of_conduct.md")
    (nth 3 sel false
     && (nth 0 sel false && negb (nth 1 sel false))
     && nth 6 sel false
     && nth 4 sel false
     && nth 5 sel false).

Definition earnedCheck (sel : list bool) (missing : list FileCheck.t)
  (present : list string) : bool :=
  let earned := communityEarnedPoints present in
  (0 <=? earned) && (earned <=? 46).

(** [points b w]: the weight [w] when the test [b] succeeds. *)
Definition points (b : bool) (w : Z) : Z := if b then w else 0.

(** The earned points in terms of the membership tests on the file set. *)
Definition earnedFormula (has : string -> bool) : Z :=
  points (has "license" && negb (has "license.txt")) 10
  + points (has "readme.md") 10
  + points (has "contributing.md") 5
  + points (has "code_of_conduct.md") 5
  + points (has "security.md") 5
  + points (has "changelog.md") 5
  + points (has "maintainers.md") 1
  + points (has ".well-known/security.txt") 5.

(** [pick b p]: the path [p] when the test [b] succeeds. *)
Definition pick (b : bool) (p : string) : list string := if b then [p] else [].

(** The recorded present paths in terms of the membership tests. *)
Definition presentFormula (has : string -> bool) : list string :=
  (pick (has "license" && negb (has "license.txt")) "LICENSE"
   ++ pick (has "readme.md") "README.md"
   ++ pick (has "contributing.md") "CONTRIBUTING.md"
   ++ pick (has "code_of_conduct.md") "CODE_OF_CONDUCT.md"
   ++ pick (has "security.md") "SECURITY.md"
   ++ pick (has "changelog.md") "CHANGELOG.md"
   ++ pick (has "maintainers.md") "MAINTAINERS.md"
   ++ pick (has ".well-known/security.txt") ".well-known/security.txt")%list.

(** The license rows reported missing, in terms of the membership tests. *)
Definition missingLicenseRows (has : string -> bool) : list string :=
  if has "license.txt" then []
  else if has "license" then []
  else if has "license.md" then ["LICENSE"]
  else ["LICENSE"; "LICENSE.txt"].

(** The number of entries of the two sequences together. *)
Definition entriesFormula (has : string -> bool) : nat :=
  if has "license.txt" then 7%nat
  else if has "license" || has "license.md" then 8%nat
  else 9%nat.

Definition formulaCheck (sel : list bool) (missing : list FileCheck.t)
  (present : list string) : bool :=
  (communityEarnedPoints present =? earnedFormula (flagsOf sel))
  && bool_decide (present = presentFormula (flagsOf sel)).

Definition licenseRowsCheck (sel : list bool) (missing : list FileCheck.t)
  (present : list string) : bool :=
  bool_decide (map path (List.filter isLicenseRow missing)
               = missingLicenseRows (flagsOf sel))
  && Nat.eqb (length missing + length present) (entriesFormula (flagsOf sel)).

(** Every test that can earn points succeeds. *)
Definition allEarned (has : string -> bool) : bool :=
  has "license" && negb (has "license.txt") && has "readme.md"
  && has "contributing.md" && has "code_of_conduct.md" && has "security.md"
  && has "changelog.md" && has "maintainers.md" && has ".well-known/security.txt".

Definition fullCheck (sel : list bool) (missing : list FileCheck.t)
  (present : list string) : bool :=
  if allEarned (flagsOf sel) then bool_decide (missing = []) else true.

(** A missing row of this kind gets a recommendation line. *)
Definition wanted (file : FileCheck.t) : bool :=
  match priority file with optional => false | _ => true end.

(** The four closing lines of [getCommunityRecommendations]. *)
Definition summaries : list string :=
  [ "✅ Community standards are complete!"
  ; "✅ Community standards are mostly complete"
  ; "⚠️  Community standards need improvement"
  ; "❌ Community standards are incomplete" ].

(** Two membership tests that answer alike on the relevant names. *)
Definition agree_on_relevant (has has' : string -> bool) : Prop :=
  forall name, In name relevantNames -> has' name = has name.

End CommunityForm.

(** ** Text

    Not part of the source: the ASCII strings, on which [Js.toLowerCase]
    works byte by byte, and runs of slashes. *)

Module TextForm.

Definition isAsciiChar (c : ascii) : bool := N.ltb (N_of_ascii c) 128.

Definition isAscii (s : string) : bool :=
  forallb isAsciiChar (list_ascii_of_string s).

(** Lower-casing byte by byte. *)
Fixpoint lowerBytes (s : string) : string :=
  match s with
  | EmptyString => EmptyString
  | String c s' => String (Js.toLowerChar c) (lowerBytes s')
  end.

(** Text made of ASCII characters and Kelvin signs: the text whose lower
    case is ASCII. *)
Fixpoint asciiOrKelvin (s : string) : bool :=
  match s with
  | EmptyString => true
  | String c s' =>
      match s' with
      | String d (String e s'') =>
          if (Ascii.eqb c "226" && Ascii.eqb d "132" && Ascii.eqb e "170")%bool
          then asciiOrKelvin s''
          else isAsciiChar c && asciiOrKelvin s'
      | _ => isAsciiChar c && asciiOrKelvin s'
      end
  end.

(** [n] slashes in a row. *)
Fixpoint slashes (n : nat) : string :=
  match n with
  | O => EmptyString
  | S n' => String "/" (slashes n')
  end.

End TextForm.

(** ** Rounding a ratio of points *)

Lemma Math_round_ratio (e m : Z) :
  0 < m ->
  Js.Math_round ((inject_Z e / inject_Z m) * 100) = (200 * e + m) / (2 * m).
Proof.
  intros Hm. destruct m as [|p|p]; try lia.
  unfold Js.Math_round, Qdiv, Qinv, Qmult, Qplus, Qfloor, inject_Z.
  cbn [Qnum Qden Z.mul Pos.mul].
  f_equal; lia.
Qed.

Lemma rounded_ratio_bounds (e m : Z) :
  0 <= e <= m -> 0 < m -> 0 <= (200 * e + m) / (2 * m) <= 100.
Proof.
  intros He Hm. split.
  - apply Z.div_pos; lia.
  - assert ((200 * e + m) / (2 * m) < 101); [|lia].
    apply Z.div_lt_upper_bound; lia.
Qed.

Lemma rounded_ratio_mono (e e' m : Z) :
  e <= e' -> 0 < m -> (200 * e + m) / (2 * m) <= (200 * e' + m) / (2 * m).
Proof. intros He Hm. apply Z.div_le_mono; lia. Qed.

(** With 42 or 46 maximal points the exact ratio is never half-way between
    two integers, so the direction in which ties are rounded is immaterial. *)
Lemma no_rounding_tie (e : Z) :
  (200 * e + 42) mod 84 <> 0 /\ (200 * e + 46) mod 92 <> 0.
Proof.
  split; intros H; apply Z.mod_divide in H; try lia;
    destruct H as [k Hk]; lia.
Qed.

(** [set.has] on a set built from a list is a search of the list. *)
Lemma has_list_to_set (l : list string) (x : string) :
  Js.has (list_to_set l) x = existsb (String.eqb x) l.
Proof.
  unfold Js.has. destruct (existsb (String.eqb x) l) eqn:Hex.
  - apply bool_decide_eq_true, elem_of_list_to_set, list_elem_of_In.
    apply existsb_exists in Hex as (y & Hin & Heq).
    apply String.eqb_eq in Heq. now subst.
  - apply bool_decide_eq_false. rewrite elem_of_list_to_set, list_elem_of_In.
    intros Hin. apply not_true_iff_false in Hex. apply Hex.
    apply existsb_exists. exists x. split; [assumption | apply String.eqb_refl].
Qed.

Lemma has_list_to_set_In (l : list string) (x : string) :
  Js.has (list_to_set l) x = true <-> In x l.
Proof.
  rewrite has_list_to_set. split.
  - intros Hex. apply existsb_exists in Hex as (y & Hin & Heq).
    apply String.eqb_eq in Heq. now subst.
  - intros Hin. apply existsb_exists. exists x.
    split; [assumption | apply String.eqb_refl].
Qed.

(** ** The structure analyzer in closed form *)

Section StructureFacts.
Import DirectoryCheck Bootstrap StructureForm.

Variable pathSet : gset string.

Lemma structure_analyze_loop (dirs : list DirectoryCheck.t) missing present :
  fold_left (analyzeStep pathSet) dirs (missing, present)
  = ((missing ++ missingOf pathSet dirs)%list,
     (present ++ presentOf pathSet dirs)%list).
Proof.
  revert missing present.
  induction dirs as [|dir rest IH]; intros missing present; simpl.
  - unfold missingOf, presentOf; simpl. now rewrite !app_nil_r.
  - unfold missingOf, presentOf in *; simpl. fold (matched pathSet dir).
    destruct (matched pathSet dir); simpl; rewrite IH, <- app_assoc; reflexivity.
Qed.

Lemma weight_pos (p : Priority) : 0 < getPriorityWeight p.
Proof. destruct p; simpl; lia. Qed.

Lemma matchedWeight_bounds dirs :
  0 <= matchedWeight pathSet dirs <= totalWeight dirs.
Proof.
  induction dirs as [|dir rest IH]; simpl; [lia|].
  pose proof (weight_pos (priority dir)).
  destruct (matched pathSet dir); lia.
Qed.

(** A registry row is found in the [present] list built by the analysis
    loop exactly when the loop matched it. *)
Lemma isPresent_presentOf (registry : list DirectoryCheck.t) dir :
  In dir registry ->
  Js.some (presentOf pathSet registry)
    (fun p => String.eqb (normalizePath p) (normalizePath (path dir)))
  = matched pathSet dir.
Proof.
  intros Hin. unfold Js.some.
  destruct (matched pathSet dir) eqn:Hm.
  - apply existsb_exists. exists (path dir). split.
    + unfold presentOf. apply in_map. apply filter_In. now split.
    + apply String.eqb_refl.
  - apply not_true_iff_false. intros Hex.
    apply existsb_exists in Hex as (p & Hp & Heq).
    unfold presentOf in Hp. apply in_map_iff in Hp as (dir' & <- & Hd').
    apply filter_In in Hd' as [_ Hm'].
    apply String.eqb_eq in Heq. unfold matched in Hm, Hm'.
    rewrite Heq in Hm'. congruence.
Qed.

Lemma structure_score_loop (registry dirs : list DirectoryCheck.t)
  maxPoints earnedPoints :
  incl dirs registry ->
  fold_left (scoreStep (presentOf pathSet registry)) dirs (maxPoints, earnedPoints)
  = (maxPoints + totalWeight dirs, earnedPoints + matchedWeight pathSet dirs).
Proof.
  revert maxPoints earnedPoints.
  induction dirs as [|dir rest IH]; intros maxPoints earnedPoints Hsub; simpl.
  - f_equal; lia.
  - apply incl_cons_inv in Hsub as [Hdir Hrest].
    rewrite isPresent_presentOf by assumption.
    destruct (matched pathSet dir); rewrite IH by assumption; f_equal; lia.
Qed.

Lemma structurePoints_closed :
  structurePoints (presentOf pathSet STANDARD_DIRECTORIES)
  = (42, matchedWeight pathSet STANDARD_DIRECTORIES).
Proof.
  unfold structurePoints.
  rewrite (structure_score_loop STANDARD_DIRECTORIES) by apply incl_refl.
  reflexivity.
Qed.

End StructureFacts.

Lemma analyzeStructure_closed existingPaths :
  Bootstrap.analyzeStructure existingPaths
  = RepoStructure.mk
      (StructureForm.missingOf (StructureForm.pathSetOf existingPaths)
         Bootstrap.STANDARD_DIRECTORIES)
      (StructureForm.presentOf (StructureForm.pathSetOf existingPaths)
         Bootstrap.STANDARD_DIRECTORIES)
      (StructureForm.scoreOf
         (StructureForm.matchedWeight (StructureForm.pathSetOf existingPaths)
            Bootstrap.STANDARD_DIRECTORIES)).
Proof.
  unfold Bootstrap.analyzeStructure. fold (StructureForm.pathSetOf existingPaths).
  rewrite structure_analyze_loop, !app_nil_l.
  unfold Bootstrap.calculateStructureScore. rewrite structurePoints_closed.
  change (0 <? 42) with true. cbv iota.
  rewrite Math_round_ratio by lia.
  unfold StructureForm.scoreOf. change (2 * 42) with 84. reflexivity.
Qed.

Section StructureOrder.
Import DirectoryCheck Bootstrap StructureForm.

Lemma pathSetOf_has existingPaths name :
  Js.has (pathSetOf existingPaths) name = true
  <-> In name (map normalizePath existingPaths).
Proof. apply has_list_to_set_In. Qed.

Lemma matchedWeight_mono (pathSet pathSet' : gset string) dirs :
  (forall name, Js.has pathSet name = true -> Js.has pathSet' name = true) ->
  matchedWeight pathSet dirs <= matchedWeight pathSet' dirs.
Proof.
  intros Hsub. induction dirs as [|dir rest IH]; simpl; [lia|].
  pose proof (weight_pos (priority dir)). unfold matched.
  destruct (Js.has pathSet (normalizePath (path dir))) eqn:Hm.
  - rewrite (Hsub _ Hm). lia.
  - destruct (Js.has pathSet' (normalizePath (path dir))); lia.
Qed.

Lemma matchedWeight_all (pathSet : gset string) dirs :
  (forall dir, In dir dirs -> matched pathSet dir = true) ->
  matchedWeight pathSet dirs = totalWeight dirs /\ missingOf pathSet dirs = [].
Proof.
  induction dirs as [|dir rest IH]; intros Hall; simpl; [split; reflexivity|].
  unfold missingOf in *. simpl.
  rewrite (Hall dir) by now left. simpl.
  destruct IH as [-> ->]; [|split; reflexivity].
  intros dir' Hin. apply Hall. now right.
Qed.

(** Enlarging the input never lowers the structure score. *)
Lemma analyzeStructure_score_mono (existingPaths existingPaths' : list string) :
  incl existingPaths existingPaths' ->
  RepoStructure.score (analyzeStructure existingPaths)
  <= RepoStructure.score (analyzeStructure existingPaths').
Proof.
  intros Hincl. rewrite !analyzeStructure_closed.
  cbn [RepoStructure.score]. unfold scoreOf.
  apply (rounded_ratio_mono _ _ 42); [|lia].
  apply matchedWeight_mono. intros name Hin.
  apply pathSetOf_has. apply pathSetOf_has in Hin.
  apply in_map_iff in Hin as (p & <- & Hp). apply in_map. now apply Hincl.
Qed.

End StructureOrder.

(** ** The community analyzer in closed form *)

Section CommunityFacts.
Import FileCheck Community CommunityForm.

Lemma community_analyze_loop fileSet (files : list FileCheck.t) missing present :
  fold_left (analyzeStep fileSet (hasLicenseIn (Js.has fileSet))) files
    (missing, present)
  = ((missing ++ missingOf (Js.has fileSet) files)%list,
     (present ++ presentOf (Js.has fileSet) files)%list).
Proof.
  revert missing present.
  induction files as [|file rest IH]; intros missing present; simpl.
  - unfold missingOf, presentOf; simpl. now rewrite !app_nil_r.
  - unfold missingOf, presentOf, skipped in *; simpl.
    fold (matched (Js.has fileSet) file).
    destruct (String.eqb (path file) "LICENSE.txt" && hasLicenseIn (Js.has fileSet));
      simpl; [apply IH|].
    destruct (String.eqb (path file) "LICENSE" && Js.has fileSet "license.txt");
      simpl; [apply IH|].
    destruct (matched (Js.has fileSet) file); simpl;
      rewrite IH, <- app_assoc; reflexivity.
Qed.

Lemma communityMaxPoints_eq : communityMaxPoints = 46.
Proof. vm_compute. reflexivity. Qed.

Lemma analyzeCommunityStandards_closed existingFiles :
  analyzeCommunityStandards existingFiles
  = CommunityStandards.mk
      (missingOf (Js.has (fileSetOf existingFiles)) STANDARD_FILES)
      (presentOf (Js.has (fileSetOf existingFiles)) STANDARD_FILES)
      (scoreOf (communityEarnedPoints
                  (presentOf (Js.has (fileSetOf existingFiles)) STANDARD_FILES))).
Proof.
  unfold analyzeCommunityStandards. fold (fileSetOf existingFiles).
  fold (hasLicenseIn (Js.has (fileSetOf existingFiles))).
  rewrite community_analyze_loop, !app_nil_l.
  unfold calculateCommunityScore. rewrite communityMaxPoints_eq.
  change (0 <? 46) with true. cbv iota.
  rewrite Math_round_ratio by lia. unfold scoreOf. change (2 * 46) with 92.
  reflexivity.
Qed.

Lemma checkRSRCompliance_knows (standards : CommunityStandards.t) :
  checkRSRCompliance standards
  = let present := CommunityStandards.presentFiles standards in
    knows present "readme.md"
    && (knows present "license" || knows present "license.txt")
    && knows present "security.md"
    && knows present "contributing.md"
    && knows present "code_of_conduct.md".
Proof.
  unfold checkRSRCompliance, knows. cbv zeta. rewrite !has_list_to_set.
  reflexivity.
Qed.

(** *** Enumeration of the membership tests *)

Lemma selections_complete (l : list bool) : In l (selections (length l)).
Proof.
  induction l as [|b l IH]; simpl; [now left|].
  apply in_or_app. destruct b; [left | right]; now apply in_map.
Qed.

Lemma selected_names_spec (has : string -> bool) (names : list string) name :
  existsb (String.eqb name)
    (map fst (List.filter snd (combine names (map has names))))
  = existsb (String.eqb name) names && has name.
Proof.
  induction names as [|n names IH]; simpl; [reflexivity|].
  destruct (has n) eqn:Hn; simpl; rewrite IH;
    destruct (String.eqb name n) eqn:He; simpl; try reflexivity;
    apply String.eqb_eq in He; subst; rewrite Hn.
  - reflexivity.
  - apply andb_false_r.
Qed.

Lemma flagsOf_relevant (has : string -> bool) name :
  In name relevantNames -> flagsOf (map has relevantNames) name = has name.
Proof.
  intros Hin. unfold flagsOf. rewrite selected_names_spec.
  replace (existsb (String.eqb name) relevantNames) with true; [reflexivity|].
  symmetry. apply existsb_exists. exists name. split; [assumption|].
  apply String.eqb_refl.
Qed.

Lemma registry_names_relevant file :
  In file STANDARD_FILES -> In (normalizeFilePath (path file)) relevantNames.
Proof.
  assert (Hall : forallb (fun file =>
                   existsb (String.eqb (normalizeFilePath (path file))) relevantNames)
                   STANDARD_FILES = true) by (vm_compute; reflexivity).
  intros Hin. apply (proj1 (forallb_forall _ _) Hall) in Hin.
  apply existsb_exists in Hin as (name & Hname & Heq).
  apply String.eqb_eq in Heq. now rewrite Heq.
Qed.

Lemma row_tests_agree (has has' : string -> bool) file :
  (forall name, In name relevantNames -> has' name = has name) ->
  In file STANDARD_FILES ->
  skipped has' file = skipped has file /\ matched has' file = matched has file.
Proof.
  intros Hagree Hin. unfold skipped, matched, hasLicenseIn.
  pose proof (registry_names_relevant file Hin) as Hrow.
  rewrite (Hagree _ Hrow).
  rewrite (Hagree "license"), (Hagree "license.txt"), (Hagree "license.md");
    [split; reflexivity | | | ]; cbn; tauto.
Qed.

(** A boolean property of the analysis that holds for the 1024 selections
    of relevant names holds for every file set. *)
Lemma community_cases
  (check : list bool -> list FileCheck.t -> list string -> bool) :
  forallb (fun sel =>
             check sel (missingOf (flagsOf sel) STANDARD_FILES)
                       (presentOf (flagsOf sel) STANDARD_FILES))
          (selections (length relevantNames)) = true ->
  forall has : string -> bool,
    check (map has relevantNames)
      (missingOf has STANDARD_FILES) (presentOf has STANDARD_FILES) = true.
Proof.
  intros Hall has.
  assert (Hsel : In (map has relevantNames) (selections (length relevantNames))).
  { rewrite <- (List.length_map has relevantNames). apply selections_complete. }
  pose proof (proj1 (forallb_forall _ _) Hall _ Hsel) as H.
  cbv beta in H.
  assert (Hm : missingOf (flagsOf (map has relevantNames)) STANDARD_FILES
               = missingOf has STANDARD_FILES).
  { unfold missingOf. apply filter_ext_in. intros file Hin.
    destruct (row_tests_agree has (flagsOf (map has relevantNames)) file)
      as [-> ->]; auto using flagsOf_relevant. }
  assert (Hp : presentOf (flagsOf (map has relevantNames)) STANDARD_FILES
               = presentOf has STANDARD_FILES).
  { unfold presentOf. f_equal. apply filter_ext_in. intros file Hin.
    destruct (row_tests_agree has (flagsOf (map has relevantNames)) file)
      as [-> ->]; auto using flagsOf_relevant. }
  rewrite Hm, Hp in H. exact H.
Qed.

Lemma earnedCheck_true sel missing present :
  earnedCheck sel missing present = true ->
  0 <= communityEarnedPoints present <= 46.
Proof. unfold earnedCheck. lia. Qed.

Lemma community_earned_bounds (has : string -> bool) :
  0 <= communityEarnedPoints (presentOf has STANDARD_FILES) <= 46.
Proof.
  apply (earnedCheck_true (map has relevantNames) (missingOf has STANDARD_FILES)).
  apply community_cases. vm_compute. reflexivity.
Qed.

Lemma community_license_txt (has : string -> bool) :
  has "license.txt" = true ->
  let missing := missingOf has STANDARD_FILES in
  let present := presentOf has STANDARD_FILES in
  forallb (fun p => negb (isLicenseAlias p)) present = true
  /\ forallb (fun file => negb (isLicenseRow file)) missing = true
  /\ (length missing + length present = 7)%nat
  /\ knows present "license" = false
  /\ knows present "license.txt" = false.
Proof.
  intros Htxt missing present.
  assert (Hall : forallb (fun sel =>
             licenseTxtCheck sel (missingOf (flagsOf sel) STANDARD_FILES)
                                 (presentOf (flagsOf sel) STANDARD_FILES))
          (selections (length relevantNames)) = true) by (vm_compute; reflexivity).
  pose proof (community_cases licenseTxtCheck Hall has) as H.
  unfold licenseTxtCheck in H. cbn [nth map relevantNames] in H.
  rewrite Htxt in H. fold missing present in H.
  repeat (apply andb_prop in H as [H ?]).
  apply negb_true_iff, orb_false_elim in H0 as [? ?].
  apply Nat.eqb_eq in H1. auto.
Qed.

(** What the compliance check answers on the result of the analysis, in
    terms of the normalized input. *)
Lemma checkRSRCompliance_characterised (existingFiles : list string) :
  let has := Js.has (fileSetOf existingFiles) in
  checkRSRCompliance (analyzeCommunityStandards existingFiles)
  = has "readme.md"
    && (has "license" && negb (has "license.txt"))
    && has "security.md"
    && has "contributing.md"
    && has "code_of_conduct.md".
Proof.
  intros has.
  assert (Hall : forallb (fun sel =>
             rsrCheck sel (missingOf (flagsOf sel) STANDARD_FILES)
                          (presentOf (flagsOf sel) STANDARD_FILES))
          (selections (length relevantNames)) = true) by (vm_compute; reflexivity).
  pose proof (community_cases rsrCheck Hall has) as H.
  unfold rsrCheck in H. cbn [nth map relevantNames] in H.
  apply Bool.eqb_prop in H.
  rewrite checkRSRCompliance_knows, analyzeCommunityStandards_closed.
  cbn [CommunityStandards.presentFiles]. cbv zeta. exact H.
Qed.

End CommunityFacts.
(** ** Lower-casing and slashes *)

Section TextFacts.
Import TextForm.

Lemma toLowerCase_cons (c : ascii) (s : string) :
  Ascii.eqb c "226" = false ->
  Js.toLowerCase (String c s) = String (Js.toLowerChar c) (Js.toLowerCase s).
Proof.
  intros Hc. destruct s as [|d [|e s]]; cbn [Js.toLowerCase]; try reflexivity.
  rewrite Hc. reflexivity.
Qed.

Lemma isAsciiChar_not_lead (c : ascii) :
  isAsciiChar c = true -> Ascii.eqb c "226" = false.
Proof.
  destruct c as [[] [] [] [] [] [] [] []]; intros H;
    first [reflexivity | discriminate H].
Qed.

Lemma isAscii_cons (c : ascii) (s : string) :
  isAscii (String c s) = isAsciiChar c && isAscii s.
Proof. reflexivity. Qed.

Lemma isAscii_app (s t : string) : isAscii (s ++ t) = isAscii s && isAscii t.
Proof.
  induction s as [|c s IH]; [reflexivity|].
  change (String c s ++ t) with (String c (s ++ t)).
  rewrite !isAscii_cons, IH. apply andb_assoc.
Qed.

Lemma toLowerChar_ascii (c : ascii) :
  isAsciiChar (Js.toLowerChar c) = isAsciiChar c.
Proof. destruct c as [[] [] [] [] [] [] [] []]; reflexivity. Qed.

Lemma toLowerCase_ascii (s : string) :
  isAscii s = true -> Js.toLowerCase s = lowerBytes s.
Proof.
  induction s as [|c s IH]; intros Hs; [reflexivity|].
  rewrite isAscii_cons in Hs. apply andb_prop in Hs as [Hc Hs].
  rewrite toLowerCase_cons by now apply isAsciiChar_not_lead.
  cbn [lowerBytes]. now rewrite IH.
Qed.

(** The lower case of a text is ASCII exactly when the text is made of
    ASCII characters and Kelvin signs: bytes outside ASCII stay outside. *)
Lemma toLowerCase_ascii_iff (s : string) :
  isAscii (Js.toLowerCase s) = asciiOrKelvin s.
Proof.
  assert (H : forall n s, (String.length s <= n)%nat ->
                isAscii (Js.toLowerCase s) = asciiOrKelvin s).
  { clear s. induction n as [|n IH]; intros s Hlen.
    - destruct s; [reflexivity | simpl in Hlen; lia].
    - destruct s as [|c [|d [|e s]]]; [reflexivity| | |].
      + cbn [Js.toLowerCase asciiOrKelvin]. rewrite isAscii_cons.
        now rewrite toLowerChar_ascii.
      + cbn [Js.toLowerCase asciiOrKelvin] in *. rewrite !isAscii_cons.
        now rewrite !toLowerChar_ascii.
      + change (Js.toLowerCase (String c (String d (String e s))))
          with (if (Ascii.eqb c "226" && Ascii.eqb d "132" && Ascii.eqb e "170")%bool
                then String "k" (Js.toLowerCase s)
                else String (Js.toLowerChar c)
                       (Js.toLowerCase (String d (String e s)))).
        change (asciiOrKelvin (String c (String d (String e s))))
          with (if (Ascii.eqb c "226" && Ascii.eqb d "132" && Ascii.eqb e "170")%bool
                then asciiOrKelvin s
                else isAsciiChar c && asciiOrKelvin (String d (String e s))).
        simpl in Hlen.
        destruct (Ascii.eqb c "226" && Ascii.eqb d "132" && Ascii.eqb e "170")%bool.
        * rewrite isAscii_cons. cbn [andb isAsciiChar]. apply IH. lia.
        * rewrite isAscii_cons, toLowerChar_ascii. f_equal.
          apply IH. simpl. lia. }
  apply (H (String.length s)). lia.
Qed.

(** The Kelvin sign is read as the letter [k]. *)
Lemma kelvin_sign_matches :
  Js.toLowerCase ".Well-Known/" = ".well-known/"
  /\ RepoStructure.presentDirs (Bootstrap.analyzeStructure [".well-Known/"])
     = [".well-known/"]
  /\ CommunityStandards.score
       (Community.analyzeCommunityStandards
          ["LICENSE"; "README.md"; "CONTRIBUTING.md"; "CODE_OF_CONDUCT.md";
           "SECURITY.md"; "CHANGELOG.md"; "MAINTAINERS.md";
           ".well-Known/security.txt"]) = 100.
Proof. repeat split; vm_compute; reflexivity. Qed.

Lemma toLowerChar_idempotent (c : ascii) :
  Js.toLowerChar (Js.toLowerChar c) = Js.toLowerChar c.
Proof. destruct c as [[] [] [] [] [] [] [] []]; reflexivity. Qed.

Lemma toLowerChar_slash (c : ascii) :
  Ascii.eqb (Js.toLowerChar c) "/" = Ascii.eqb c "/".
Proof. destruct c as [[] [] [] [] [] [] [] []]; reflexivity. Qed.

Lemma toLowerChar_backslash (c : ascii) :
  Js.toLowerChar (if Ascii.eqb c "\" then "/"%char else c)
  = if Ascii.eqb (Js.toLowerChar c) "\" then "/"%char else Js.toLowerChar c.
Proof. destruct c as [[] [] [] [] [] [] [] []]; reflexivity. Qed.

Lemma lowerBytes_idempotent (s : string) :
  lowerBytes (lowerBytes s) = lowerBytes s.
Proof.
  induction s as [|c s IH]; simpl; [reflexivity|].
  now rewrite toLowerChar_idempotent, IH.
Qed.

Lemma lowerBytes_app (s t : string) :
  lowerBytes (s ++ t) = lowerBytes s ++ lowerBytes t.
Proof. induction s as [|c s IH]; simpl; [reflexivity | now rewrite IH]. Qed.

Lemma lowerBytes_ascii (s : string) : isAscii (lowerBytes s) = isAscii s.
Proof.
  induction s as [|c s IH]; [reflexivity|].
  cbn [lowerBytes]. now rewrite !isAscii_cons, toLowerChar_ascii, IH.
Qed.

Lemma lowerBytes_strip (s : string) :
  lowerBytes (Js.stripTrailingSlashes s) = Js.stripTrailingSlashes (lowerBytes s).
Proof.
  induction s as [|c s IH]; simpl; [reflexivity|].
  rewrite <- IH.
  destruct (Js.stripTrailingSlashes s) as [|a r]; simpl.
  - rewrite toLowerChar_slash. destruct (Ascii.eqb c "/"); reflexivity.
  - reflexivity.
Qed.

Lemma lowerBytes_replaceBackslashes (s : string) :
  lowerBytes (Js.replaceBackslashes s) = Js.replaceBackslashes (lowerBytes s).
Proof.
  induction s as [|c s IH]; simpl; [reflexivity|].
  now rewrite IH, toLowerChar_backslash.
Qed.

Lemma strip_idempotent (s : string) :
  Js.stripTrailingSlashes (Js.stripTrailingSlashes s) = Js.stripTrailingSlashes s.
Proof.
  induction s as [|c s IH]; simpl; [reflexivity|].
  destruct (Js.stripTrailingSlashes s) as [|a r] eqn:Hs.
  - destruct (Ascii.eqb c "/") eqn:Hc; simpl; [reflexivity|]. now rewrite Hc.
  - change (Js.stripTrailingSlashes (String c (String a r)))
      with (match Js.stripTrailingSlashes (String a r) with
            | EmptyString => if Ascii.eqb c "/" then EmptyString else String c EmptyString
            | r' => String c r'
            end).
    rewrite IH. reflexivity.
Qed.

Lemma strip_app_slash (s : string) :
  Js.stripTrailingSlashes (s ++ "/") = Js.stripTrailingSlashes s.
Proof. induction s as [|c s IH]; simpl; [reflexivity | now rewrite IH]. Qed.

Lemma append_nil_r (s : string) : s ++ "" = s.
Proof.
  induction s as [|c s IH]; [reflexivity|].
  change (String c s ++ "") with (String c (s ++ "")). now rewrite IH.
Qed.

Lemma append_assoc (s t u : string) : s ++ t ++ u = (s ++ t) ++ u.
Proof.
  induction s as [|c s IH]; [reflexivity|].
  change (String c s ++ t ++ u) with (String c (s ++ t ++ u)).
  change ((String c s ++ t) ++ u) with (String c ((s ++ t) ++ u)).
  now rewrite IH.
Qed.

Lemma strip_app_slashes (s : string) (n : nat) :
  Js.stripTrailingSlashes (s ++ slashes n) = Js.stripTrailingSlashes s.
Proof.
  revert s. induction n as [|n IH]; intros s; cbn [slashes].
  - now rewrite append_nil_r.
  - change (String "/" (slashes n)) with ("/" ++ slashes n).
    rewrite append_assoc, IH. apply strip_app_slash.
Qed.

Lemma strip_no_trailing_slash (s q : string) :
  Js.stripTrailingSlashes s <> q ++ "/".
Proof.
  revert q. induction s as [|c s IH]; intros q; simpl.
  - destruct q; discriminate.
  - destruct (Js.stripTrailingSlashes s) as [|a r] eqn:Hs.
    + destruct (Ascii.eqb c "/") eqn:Hc.
      * destruct q; discriminate.
      * destruct q as [|c' q]; simpl; intros Heq.
        -- injection Heq as ->. discriminate Hc.
        -- injection Heq as _ Heq. destruct q; discriminate.
    + destruct q as [|c' q]; simpl; intros Heq; [discriminate|].
      injection Heq as _ Heq. exact (IH q Heq).
Qed.

Lemma strip_ascii (s : string) :
  isAscii s = true -> isAscii (Js.stripTrailingSlashes s) = true.
Proof.
  induction s as [|c s IH]; intros Hs; [reflexivity|].
  rewrite isAscii_cons in Hs. apply andb_prop in Hs as [Hc Hs].
  specialize (IH Hs). cbn [Js.stripTrailingSlashes].
  destruct (Js.stripTrailingSlashes s) as [|a r].
  - destruct (Ascii.eqb c "/"); [reflexivity|].
    rewrite isAscii_cons, Hc. reflexivity.
  - rewrite isAscii_cons, Hc, IH. reflexivity.
Qed.

Lemma replaceBackslashes_idempotent (s : string) :
  Js.replaceBackslashes (Js.replaceBackslashes s) = Js.replaceBackslashes s.
Proof.
  induction s as [|c s IH]; simpl; [reflexivity|]. rewrite IH. f_equal.
  destruct (Ascii.eqb c "\") eqn:Hc; [reflexivity | now rewrite Hc].
Qed.

Lemma replaceBackslashes_no_backslash (s : string) :
  existsb (Ascii.eqb "\") (list_ascii_of_string (Js.replaceBackslashes s)) = false.
Proof.
  induction s as [|c s IH]; [reflexivity|].
  cbn [existsb list_ascii_of_string Js.replaceBackslashes].
  rewrite IH, orb_false_r.
  destruct (Ascii.eqb c "\") eqn:Hc; [reflexivity|].
  now rewrite Ascii.eqb_sym.
Qed.

Lemma replaceBackslashes_ascii (s : string) :
  isAscii s = true -> isAscii (Js.replaceBackslashes s) = true.
Proof.
  induction s as [|c s IH]; intros Hs; [reflexivity|].
  rewrite isAscii_cons in Hs. apply andb_prop in Hs as [Hc Hs].
  cbn [Js.replaceBackslashes]. rewrite isAscii_cons, (IH Hs), andb_true_r.
  destruct (Ascii.eqb c "\"); [reflexivity | exact Hc].
Qed.

Lemma slashes_ascii (n : nat) : isAscii (slashes n) = true.
Proof. induction n as [|n IH]; [reflexivity|]. cbn [slashes]. now rewrite isAscii_cons, IH. Qed.

(** The normal form of an ASCII path followed by any number of slashes. *)
Lemma normalizePath_slashes (s : string) (n : nat) :
  isAscii s = true ->
  Bootstrap.normalizePath (s ++ slashes n) = Js.stripTrailingSlashes (lowerBytes s).
Proof.
  intros Hs. unfold Bootstrap.normalizePath.
  rewrite toLowerCase_ascii by now rewrite isAscii_app, Hs, slashes_ascii.
  rewrite lowerBytes_app.
  replace (lowerBytes (slashes n)) with (slashes n).
  - apply strip_app_slashes.
  - induction n as [|n IH]; [reflexivity|]. cbn [slashes lowerBytes]. now rewrite <- IH.
Qed.

Lemma analyzeStructure_normalized (existingPaths existingPaths' : list string) :
  map Bootstrap.normalizePath existingPaths
  = map Bootstrap.normalizePath existingPaths' ->
  Bootstrap.analyzeStructure existingPaths = Bootstrap.analyzeStructure existingPaths'.
Proof. intros H. unfold Bootstrap.analyzeStructure. now rewrite H. Qed.

End TextFacts.

(** ** Properties of the analyzers *)

Section Claims.
Import Bootstrap Community.

(** C1 (the code deviates). On [["README.md"; "LICENSE"]] the community
    score is 43, on [["README.md"; "LICENSE.txt"]] it is 22: the loop skips
    both license rows when [license.txt] is in the file set, so the two
    scores differ by 21 and not by at most one rounding unit. *)
Theorem license_equivalence_scores :
  CommunityStandards.score (analyzeCommunityStandards ["README.md"; "LICENSE"]) = 43
  /\ CommunityStandards.score
       (analyzeCommunityStandards ["README.md"; "LICENSE.txt"]) = 22.
Proof. split; vm_compute; reflexivity. Qed.

(** C2 (the code deviates). The license class adds its weight once to
    [maxPoints], which is 46 whatever the input; but on [["LICENSE.txt"]]
    nothing is recorded as present and no point is earned, whereas
    [["LICENSE"]] earns the 10 points of the class.  With LICENSE.txt and
    the seven other files of the registry the score is 78, not 100. *)
Theorem license_txt_alone_earns_nothing :
  communityMaxPoints = 46
  /\ CommunityStandards.presentFiles (analyzeCommunityStandards ["LICENSE.txt"]) = []
  /\ communityEarnedPoints
       (CommunityStandards.presentFiles (analyzeCommunityStandards ["LICENSE.txt"]))
     = 0
  /\ CommunityStandards.score (analyzeCommunityStandards ["LICENSE.txt"]) = 0
  /\ communityEarnedPoints
       (CommunityStandards.presentFiles (analyzeCommunityStandards ["LICENSE"]))
     = 10
  /\ CommunityStandards.score
       (analyzeCommunityStandards
          ["LICENSE.txt"; "README.md"; "CONTRIBUTING.md"; "CODE_OF_CONDUCT.md";
           "SECURITY.md"; "CHANGELOG.md"; "MAINTAINERS.md";
           ".well-known/security.txt"]) = 78.
Proof. repeat split; vm_compute; reflexivity. Qed.

(** C3 (the code deviates). With README.md, LICENSE.txt, SECURITY.md,
    CONTRIBUTING.md and CODE_OF_CONDUCT.md in the input the compliance
    check answers [false]; with LICENSE in place of LICENSE.txt it answers
    [true]. *)
Theorem rsr_compliance_with_license_txt :
  checkRSRCompliance
    (analyzeCommunityStandards
       ["README.md"; "LICENSE.txt"; "SECURITY.md"; "CONTRIBUTING.md";
        "CODE_OF_CONDUCT.md"]) = false
  /\ checkRSRCompliance
       (analyzeCommunityStandards
          ["README.md"; "LICENSE"; "SECURITY.md"; "CONTRIBUTING.md";
           "CODE_OF_CONDUCT.md"]) = true.
Proof. split; vm_compute; reflexivity. Qed.

(** C4 (the code deviates). LICENSE.txt is a required registry item that
    is absent from [["LICENSE"]]; adding it lowers the community score from
    22 to 0. *)
Theorem adding_license_txt_lowers_score :
  In (FileCheck.mk "LICENSE.txt" "License terms (alternative)" required None)
     STANDARD_FILES
  /\ ~ In "LICENSE.txt" ["LICENSE"]
  /\ CommunityStandards.score (analyzeCommunityStandards ["LICENSE"]) = 22
  /\ CommunityStandards.score
       (analyzeCommunityStandards ["LICENSE"; "LICENSE.txt"]) = 0.
Proof.
  split; [right; left; reflexivity|].
  split; [intros [H|[]]; discriminate H|].
  split; vm_compute; reflexivity.
Qed.

Lemma structure_maxPoints_loop present dirs maxPoints earnedPoints :
  fst (fold_left (Bootstrap.scoreStep present) dirs (maxPoints, earnedPoints))
  = maxPoints + StructureForm.totalWeight dirs.
Proof.
  revert maxPoints earnedPoints.
  induction dirs as [|dir rest IH]; intros maxPoints earnedPoints; simpl; [lia|].
  destruct (Js.some present _); rewrite IH; lia.
Qed.

(** C5, as the claim states it, fails: the weights of the structure
    registry do not add up to 38. *)
Lemma structure_weight_sum_not_38 :
  StructureForm.totalWeight STANDARD_DIRECTORIES <> 38.
Proof. vm_compute. discriminate. Qed.

(** C5 (amended). The structure registry has 8 rows: 2 required, 4
    recommended and 2 optional; their weights add up to 42, and 42 is the
    [maxPoints] that the scoring loop computes on every input. *)
Theorem structure_weight_sum :
  StructureForm.totalWeight STANDARD_DIRECTORIES = 42
  /\ (forall present, fst (structurePoints present) = 42)
  /\ length STANDARD_DIRECTORIES = 8%nat
  /\ StructureForm.countPriority required STANDARD_DIRECTORIES = 2%nat
  /\ StructureForm.countPriority recommended STANDARD_DIRECTORIES = 4%nat
  /\ StructureForm.countPriority optional STANDARD_DIRECTORIES = 2%nat.
Proof.
  split; [reflexivity|]. split; [|repeat split; reflexivity].
  intros present. unfold structurePoints. rewrite structure_maxPoints_loop.
  reflexivity.
Qed.

(** C6, as the claim states it, fails: on [["SRC"]] the structure analyzer
    records ["src/"], which the caller did not supply; on [["readme.MD"]]
    the community analyzer records ["README.md"]. *)
Lemma present_not_raw_input :
  ~ (forall p,
        In p (RepoStructure.presentDirs (analyzeStructure ["SRC"])) -> In p ["SRC"])
  /\ ~ (forall p,
          In p (CommunityStandards.presentFiles
                  (analyzeCommunityStandards ["readme.MD"])) ->
          In p ["readme.MD"]).
Proof.
  split; intros H.
  - assert (Hin : In "src/" ["SRC"]).
    { apply H. vm_compute. left. reflexivity. }
    destruct Hin as [Heq|[]]. discriminate Heq.
  - assert (Hin : In "README.md" ["readme.MD"]).
    { apply H. vm_compute. left. reflexivity. }
    destruct Hin as [Heq|[]]. discriminate Heq.
Qed.

(** C6 (amended). The present sequence lists, in registry order, the
    registry's own spelling of the path of every registry row that the
    loop matched: for the structure analyzer the rows whose normalized
    path is in the normalized input, for the community analyzer the rows
    not skipped by the license tests whose normalized path is in the
    normalized input.  The caller's strings are not recorded. *)
Theorem present_lists_registry_paths (existingPaths existingFiles : list string) :
  RepoStructure.presentDirs (analyzeStructure existingPaths)
  = map DirectoryCheck.path
      (List.filter
         (fun dir =>
            Js.has (list_to_set (map normalizePath existingPaths))
              (normalizePath (DirectoryCheck.path dir)))
         STANDARD_DIRECTORIES)
  /\ CommunityStandards.presentFiles (analyzeCommunityStandards existingFiles)
     = map FileCheck.path
         (List.filter
            (fun file =>
               negb (CommunityForm.skipped
                       (Js.has (list_to_set (map normalizeFilePath existingFiles)))
                       file)
               && Js.has (list_to_set (map normalizeFilePath existingFiles))
                    (normalizeFilePath (FileCheck.path file)))
            STANDARD_FILES).
Proof.
  rewrite analyzeStructure_closed, analyzeCommunityStandards_closed.
  split; reflexivity.
Qed.

(** C7. On the empty list the structure analyzer returns score 0, an
    empty present list and the 8 registry rows as missing; on a list that
    contains every registry path it returns score 100 and nothing missing. *)
Theorem analyzeStructure_empty_and_full (existingPaths : list string) :
  incl (map DirectoryCheck.path STANDARD_DIRECTORIES) existingPaths ->
  analyzeStructure [] = RepoStructure.mk STANDARD_DIRECTORIES [] 0
  /\ length STANDARD_DIRECTORIES = 8%nat
  /\ RepoStructure.score (analyzeStructure existingPaths) = 100
  /\ RepoStructure.missingDirs (analyzeStructure existingPaths) = [].
Proof.
  intros Hincl.
  split; [vm_compute; reflexivity|]. split; [reflexivity|].
  rewrite analyzeStructure_closed.
  cbn [RepoStructure.score RepoStructure.missingDirs].
  destruct (matchedWeight_all (StructureForm.pathSetOf existingPaths)
              STANDARD_DIRECTORIES) as [-> ->].
  - intros dir Hin. apply pathSetOf_has. apply in_map.
    apply Hincl. now apply in_map.
  - split; reflexivity.
Qed.

Lemma analyzeStructure_empty_and_full_witness :
  let all :=
    ["src/"; "tests/"; "docs/"; "examples/"; ".gitlab/"; ".github/"; "scripts/";
     ".well-known/"] in
  incl (map DirectoryCheck.path STANDARD_DIRECTORIES) all
  /\ RepoStructure.score (analyzeStructure all) = 100
  /\ RepoStructure.missingDirs (analyzeStructure all) = [].
Proof.
  intros all.
  assert (Hincl : incl (map DirectoryCheck.path STANDARD_DIRECTORIES) all).
  { intros p Hp. simpl in Hp. exact Hp. }
  split; [exact Hincl|].
  exact (proj2 (proj2 (analyzeStructure_empty_and_full all Hincl))).
Defined.

(** C8. On [["SRC/"; "Tests/"]] the structure analyzer records the
    registry rows [src/] and [tests/] as present and neither as missing;
    the same holds with any number of slashes, none included, after
    [SRC] and after [Tests]. *)
Theorem analyzeStructure_case_insensitive (n m : nat) :
  (RepoStructure.presentDirs (analyzeStructure ["SRC/"; "Tests/"])
   = ["src/"; "tests/"]
   /\ map DirectoryCheck.path
        (RepoStructure.missingDirs (analyzeStructure ["SRC/"; "Tests/"]))
      = ["docs/"; "examples/"; ".gitlab/"; ".github/"; "scripts/"; ".well-known/"])
  /\ RepoStructure.presentDirs
       (analyzeStructure ["SRC" ++ TextForm.slashes n; "Tests" ++ TextForm.slashes m])
     = ["src/"; "tests/"]
  /\ map DirectoryCheck.path
       (RepoStructure.missingDirs
          (analyzeStructure
             ["SRC" ++ TextForm.slashes n; "Tests" ++ TextForm.slashes m]))
     = ["docs/"; "examples/"; ".gitlab/"; ".github/"; "scripts/"; ".well-known/"].
Proof.
  split; [split; vm_compute; reflexivity|].
  rewrite (analyzeStructure_normalized
             ["SRC" ++ TextForm.slashes n; "Tests" ++ TextForm.slashes m]
             ["SRC/"; "Tests/"]).
  - split; vm_compute; reflexivity.
  - cbn [map]. rewrite !normalizePath_slashes by reflexivity. reflexivity.
Qed.

(** C9. When the normalized input contains [license.txt], no recorded
    present path is a license alias, neither the LICENSE nor the
    LICENSE.txt row is reported missing, the two sequences hold 7 entries
    together while the registry has 9 rows, and the compliance check finds
    no license and answers [false]. *)
Theorem license_txt_skips_both_rows (existingFiles : list string) :
  In "license.txt" (map normalizeFilePath existingFiles) ->
  let result := analyzeCommunityStandards existingFiles in
  let present := CommunityStandards.presentFiles result in
  let missing := CommunityStandards.missingFiles result in
  (forall p, In p present -> CommunityForm.isLicenseAlias p = false)
  /\ (forall file, In file missing ->
        FileCheck.path file <> "LICENSE" /\ FileCheck.path file <> "LICENSE.txt")
  /\ (length missing + length present = 7)%nat
  /\ length STANDARD_FILES = 9%nat
  /\ Js.has (list_to_set (map normalizeFilePath present)) "license" = false
  /\ Js.has (list_to_set (map normalizeFilePath present)) "license.txt" = false
  /\ checkRSRCompliance result = false.
Proof.
  intros Htxt. cbv zeta.
  apply has_list_to_set_In in Htxt.
  fold (CommunityForm.fileSetOf existingFiles) in Htxt.
  destruct (community_license_txt _ Htxt) as (Hp & Hm & Hlen & Hl & Hlt).
  rewrite analyzeCommunityStandards_closed.
  cbn [CommunityStandards.presentFiles CommunityStandards.missingFiles].
  split; [|split; [|split; [|split; [|split; [|split]]]]].
  - intros p Hin. apply (proj1 (forallb_forall _ _) Hp) in Hin.
    now apply negb_true_iff in Hin.
  - intros file Hin. apply (proj1 (forallb_forall _ _) Hm) in Hin.
    apply negb_true_iff in Hin. unfold CommunityForm.isLicenseRow in Hin.
    apply orb_false_elim in Hin as [H1 H2].
    apply String.eqb_neq in H1, H2. now split.
  - exact Hlen.
  - reflexivity.
  - rewrite has_list_to_set. exact Hl.
  - rewrite has_list_to_set. exact Hlt.
  - rewrite checkRSRCompliance_knows.
    cbn [CommunityStandards.presentFiles]. cbv zeta.
    rewrite Hl, Hlt. cbn [orb]. rewrite andb_false_r. reflexivity.
Qed.

Lemma license_txt_skips_both_rows_witness :
  In "license.txt" (map normalizeFilePath ["README.md"; "LICENSE.txt"])
  /\ checkRSRCompliance
       (analyzeCommunityStandards ["README.md"; "LICENSE.txt"]) = false.
Proof.
  assert (Htxt : In "license.txt"
                   (map normalizeFilePath ["README.md"; "LICENSE.txt"])).
  { right. left. reflexivity. }
  split; [exact Htxt|].
  apply (license_txt_skips_both_rows ["README.md"; "LICENSE.txt"] Htxt).
Defined.

(** C10. For every input the score of either analyzer is an integer
    between 0 and 100, and the earned points lie between 0 and the
    maximal points (42 for the structure registry, 46 for the community
    registry). *)
Theorem scores_within_bounds (existingPaths existingFiles : list string) :
  0 <= RepoStructure.score (analyzeStructure existingPaths) <= 100
  /\ 0 <= CommunityStandards.score (analyzeCommunityStandards existingFiles) <= 100
  /\ 0 <= snd (structurePoints
                 (RepoStructure.presentDirs (analyzeStructure existingPaths)))
       <= fst (structurePoints
                 (RepoStructure.presentDirs (analyzeStructure existingPaths)))
  /\ 0 <= communityEarnedPoints
            (CommunityStandards.presentFiles
               (analyzeCommunityStandards existingFiles))
       <= communityMaxPoints.
Proof.
  rewrite analyzeStructure_closed, analyzeCommunityStandards_closed.
  cbn [RepoStructure.score RepoStructure.presentDirs
       CommunityStandards.score CommunityStandards.presentFiles].
  rewrite structurePoints_closed, communityMaxPoints_eq. cbn [fst snd].
  pose proof (matchedWeight_bounds (StructureForm.pathSetOf existingPaths)
                STANDARD_DIRECTORIES) as Hs.
  change (StructureForm.totalWeight STANDARD_DIRECTORIES) with 42 in Hs.
  pose proof (community_earned_bounds
                (Js.has (CommunityForm.fileSetOf existingFiles))) as Hc.
  split; [|split; [|split]]; try assumption.
  - apply (rounded_ratio_bounds _ 42); [assumption | lia].
  - apply (rounded_ratio_bounds _ 46); [assumption | lia].
Qed.

End Claims.
(** ** Path normalization *)

Section Normalization.
Import Bootstrap Community TextForm.

(** X1. Normalizing an ASCII directory path twice is the same as
    normalizing it once, and the case of its letters does not matter. *)
Theorem normalizePath_idempotent (p : string) :
  isAscii p = true ->
  normalizePath (normalizePath p) = normalizePath p
  /\ normalizePath (Js.toLowerCase p) = normalizePath p.
Proof.
  intros Hp. unfold normalizePath. rewrite (toLowerCase_ascii p Hp). split.
  - rewrite toLowerCase_ascii by (apply strip_ascii; now rewrite lowerBytes_ascii).
    rewrite lowerBytes_strip, lowerBytes_idempotent. apply strip_idempotent.
  - rewrite toLowerCase_ascii by now rewrite lowerBytes_ascii.
    now rewrite lowerBytes_idempotent.
Qed.

Lemma normalizePath_idempotent_witness :
  normalizePath (normalizePath "Docs/API//") = normalizePath "Docs/API//"
  /\ normalizePath (Js.toLowerCase "Docs/API//") = normalizePath "Docs/API//".
Proof. apply (normalizePath_idempotent "Docs/API//"). reflexivity. Defined.

(** X2. A slash appended to an ASCII directory path does not change its
    normal form, and the normal form does not end in a slash. *)
Theorem normalizePath_trailing_slash (p q : string) :
  isAscii p = true ->
  normalizePath (p ++ "/") = normalizePath p
  /\ normalizePath p <> q ++ "/".
Proof.
  intros Hp. unfold normalizePath. split.
  - rewrite (toLowerCase_ascii p Hp).
    rewrite toLowerCase_ascii by now rewrite isAscii_app, Hp.
    rewrite lowerBytes_app. apply strip_app_slash.
  - apply strip_no_trailing_slash.
Qed.

Lemma normalizePath_trailing_slash_witness :
  normalizePath ("Docs" ++ "/") = normalizePath "Docs"
  /\ normalizePath "Docs" <> "docs" ++ "/".
Proof. apply (normalizePath_trailing_slash "Docs" "docs"). reflexivity. Defined.

(** X3. Normalizing an ASCII file path twice is the same as normalizing it
    once, and the normalized path holds no backslash. *)
Theorem normalizeFilePath_idempotent (p : string) :
  isAscii p = true ->
  normalizeFilePath (normalizeFilePath p) = normalizeFilePath p
  /\ existsb (Ascii.eqb "\") (list_ascii_of_string (normalizeFilePath p)) = false.
Proof.
  intros Hp. unfold normalizeFilePath. rewrite (toLowerCase_ascii p Hp). split.
  - rewrite toLowerCase_ascii
      by (apply replaceBackslashes_ascii; now rewrite lowerBytes_ascii).
    rewrite lowerBytes_replaceBackslashes, lowerBytes_idempotent.
    apply replaceBackslashes_idempotent.
  - apply replaceBackslashes_no_backslash.
Qed.

Lemma normalizeFilePath_idempotent_witness :
  normalizeFilePath (normalizeFilePath ".Well-Known\Security.TXT")
  = normalizeFilePath ".Well-Known\Security.TXT"
  /\ existsb (Ascii.eqb "\")
       (list_ascii_of_string (normalizeFilePath ".Well-Known\Security.TXT"))
     = false.
Proof.
  apply (normalizeFilePath_idempotent ".Well-Known\Security.TXT"). reflexivity.
Defined.

End Normalization.
(** ** Further properties of the structure analyzer *)

Section StructureExtras.
Import Bootstrap StructureForm.

Lemma pathSetOf_ext (existingPaths existingPaths' : list string) :
  (forall name, In name (map normalizePath existingPaths)
                <-> In name (map normalizePath existingPaths')) ->
  pathSetOf existingPaths = pathSetOf existingPaths'.
Proof.
  intros Hsame. unfold pathSetOf. apply set_eq. intros name.
  rewrite !elem_of_list_to_set, !list_elem_of_In. apply Hsame.
Qed.

(** X4. The structure analysis depends on its input only through the set
    of normalized paths: order, repetitions, letter case and trailing
    slashes of the input are immaterial. *)
Theorem analyzeStructure_same_set (existingPaths existingPaths' : list string) :
  (forall name, In name (map normalizePath existingPaths)
                <-> In name (map normalizePath existingPaths')) ->
  analyzeStructure existingPaths = analyzeStructure existingPaths'.
Proof.
  intros Hsame. rewrite !analyzeStructure_closed.
  now rewrite (pathSetOf_ext _ _ Hsame).
Qed.

Lemma analyzeStructure_same_set_witness :
  analyzeStructure ["Tests/"; "SRC//"; "tests"] = analyzeStructure ["src"; "tests"].
Proof.
  apply (analyzeStructure_same_set ["Tests/"; "SRC//"; "tests"] ["src"; "tests"]).
  intros name. vm_compute. tauto.
Defined.

(** X5. Every registry row is reported exactly once: either the row is in
    [missingDirs] and its path is not in [presentDirs], or the other way
    round; the two sequences hold 8 entries together. *)
Theorem analyzeStructure_partition (existingPaths : list string) :
  let result := analyzeStructure existingPaths in
  Forall (fun dir =>
            (In dir (RepoStructure.missingDirs result)
             /\ ~ In (DirectoryCheck.path dir) (RepoStructure.presentDirs result))
            \/ (~ In dir (RepoStructure.missingDirs result)
                /\ In (DirectoryCheck.path dir) (RepoStructure.presentDirs result)))
         STANDARD_DIRECTORIES
  /\ (length (RepoStructure.missingDirs result)
      + length (RepoStructure.presentDirs result) = 8)%nat.
Proof.
  cbv zeta. rewrite analyzeStructure_closed.
  cbn [RepoStructure.missingDirs RepoStructure.presentDirs].
  set (pathSet := pathSetOf existingPaths). split.
  - apply List.Forall_forall. intros dir Hin.
    destruct (matched pathSet dir) eqn:Hm.
    + right. split.
      * unfold missingOf. rewrite filter_In. intros [_ Hn].
        rewrite Hm in Hn. discriminate Hn.
      * unfold presentOf. apply in_map. apply filter_In. now split.
    + left. split.
      * unfold missingOf. apply filter_In. split; [assumption|].
        now rewrite Hm.
      * unfold presentOf. rewrite in_map_iff. intros (dir' & Hpath & Hd').
        apply filter_In in Hd' as [_ Hm']. unfold matched in Hm, Hm'.
        rewrite Hpath in Hm'. congruence.
  - unfold missingOf, presentOf. rewrite List.length_map, Nat.add_comm.
    apply (filter_length (matched pathSet) STANDARD_DIRECTORIES).
Qed.

Lemma matchedWeight_total_iff pathSet dirs :
  matchedWeight pathSet dirs = totalWeight dirs <-> missingOf pathSet dirs = [].
Proof.
  induction dirs as [|dir rest IH]; simpl; [tauto|].
  pose proof (weight_pos (DirectoryCheck.priority dir)).
  pose proof (matchedWeight_bounds pathSet rest).
  unfold missingOf in *. simpl. destruct (matched pathSet dir); simpl.
  - rewrite <- IH. lia.
  - split; [lia | discriminate].
Qed.

Lemma matchedWeight_zero_iff pathSet dirs :
  matchedWeight pathSet dirs = 0 <-> presentOf pathSet dirs = [].
Proof.
  induction dirs as [|dir rest IH]; simpl; [tauto|].
  pose proof (weight_pos (DirectoryCheck.priority dir)).
  pose proof (matchedWeight_bounds pathSet rest).
  unfold presentOf in *. simpl. destruct (matched pathSet dir); simpl.
  - split; [lia | discriminate].
  - rewrite <- IH. lia.
Qed.

Lemma structure_scoreOf_100 (e : Z) : 0 <= e <= 42 -> (scoreOf e = 100 <-> e = 42).
Proof.
  intros He. unfold scoreOf. split.
  - intros H. assert (e = 42 \/ e <= 41) as [->|Hle] by lia; [reflexivity|].
    assert ((200 * e + 42) / 84 < 100); [|lia].
    apply Z.div_lt_upper_bound; lia.
  - intros ->. reflexivity.
Qed.

Lemma structure_scoreOf_0 (e : Z) : 0 <= e -> (scoreOf e = 0 <-> e = 0).
Proof.
  intros He. unfold scoreOf. split.
  - intros H. assert (e = 0 \/ 1 <= e) as [->|Hge] by lia; [reflexivity|].
    assert (1 <= (200 * e + 42) / 84); [|lia].
    apply Z.div_le_lower_bound; lia.
  - intros ->. reflexivity.
Qed.

Lemma structure_score_ends (existingPaths : list string) :
  let result := analyzeStructure existingPaths in
  (RepoStructure.score result = 100 <-> RepoStructure.missingDirs result = [])
  /\ (RepoStructure.score result = 0 <-> RepoStructure.presentDirs result = []).
Proof.
  cbv zeta. rewrite analyzeStructure_closed.
  cbn [RepoStructure.score RepoStructure.missingDirs RepoStructure.presentDirs].
  pose proof (matchedWeight_bounds (pathSetOf existingPaths) STANDARD_DIRECTORIES)
    as Hb.
  change (totalWeight STANDARD_DIRECTORIES) with 42 in Hb.
  split.
  - rewrite structure_scoreOf_100 by assumption.
    rewrite <- matchedWeight_total_iff. reflexivity.
  - rewrite structure_scoreOf_0 by lia. apply matchedWeight_zero_iff.
Qed.

(** X6. The structure score is 100 exactly when no registry row is
    missing, and 0 exactly when no registry row is present. *)
Theorem analyzeStructure_score_extremes (existingPaths : list string) :
  let result := analyzeStructure existingPaths in
  (RepoStructure.score result = 100 <-> RepoStructure.missingDirs result = [])
  /\ (RepoStructure.score result = 0 <-> RepoStructure.presentDirs result = []).
Proof. exact (structure_score_ends existingPaths). Qed.

End StructureExtras.
Section StructureScoring.
Import Bootstrap StructureForm.

Lemma matchedWeight_strict (pathSet pathSet' : gset string) dirs dir :
  (forall name, Js.has pathSet name = true -> Js.has pathSet' name = true) ->
  In dir dirs ->
  matched pathSet dir = false ->
  matched pathSet' dir = true ->
  matchedWeight pathSet dirs + 1 <= matchedWeight pathSet' dirs.
Proof.
  intros Hsub Hin Hold Hnew.
  induction dirs as [|d rest IH]; simpl; [destruct Hin|].
  pose proof (weight_pos (DirectoryCheck.priority d)).
  pose proof (matchedWeight_mono pathSet pathSet' rest Hsub).
  destruct Hin as [->|Hin].
  - rewrite Hold, Hnew. lia.
  - specialize (IH Hin).
    destruct (matched pathSet d) eqn:Hm; destruct (matched pathSet' d) eqn:Hm';
      try lia.
    unfold matched in Hm, Hm'. rewrite (Hsub _ Hm) in Hm'. discriminate Hm'.
Qed.

Lemma structure_scoreOf_strict (e e' : Z) :
  0 <= e -> e + 1 <= e' -> scoreOf e + 2 <= scoreOf e'.
Proof.
  intros He Hlt. unfold scoreOf.
  transitivity ((200 * e + 42 + 2 * 84) / 84).
  - rewrite Z.div_add by lia. lia.
  - apply Z.div_le_mono; lia.
Qed.

(** X7. Supplying the path of a registry directory that the input did not
    match raises the structure score by at least 2. *)
Theorem analyzeStructure_score_increases
  (existingPaths : list string) (dir : DirectoryCheck.t) :
  In dir STANDARD_DIRECTORIES ->
  ~ In (normalizePath (DirectoryCheck.path dir)) (map normalizePath existingPaths) ->
  RepoStructure.score (analyzeStructure existingPaths) + 2
  <= RepoStructure.score (analyzeStructure (DirectoryCheck.path dir :: existingPaths)).
Proof.
  intros Hin Hnew. rewrite !analyzeStructure_closed.
  cbn [RepoStructure.score].
  apply structure_scoreOf_strict.
  - apply matchedWeight_bounds.
  - apply (matchedWeight_strict _ _ _ dir); try assumption.
    + intros name Hn. apply pathSetOf_has. apply pathSetOf_has in Hn.
      simpl. now right.
    + unfold matched. apply not_true_iff_false. intros Hm.
      apply pathSetOf_has in Hm. contradiction.
    + unfold matched. apply pathSetOf_has. simpl. now left.
Qed.

Lemma analyzeStructure_score_increases_witness :
  RepoStructure.score (analyzeStructure ["src"]) + 2
  <= RepoStructure.score (analyzeStructure [".github/"; "src"]).
Proof.
  apply (analyzeStructure_score_increases ["src"]
           (DirectoryCheck.mk ".github/" "GitHub-specific config" optional None)).
  - vm_compute. tauto.
  - vm_compute. intros [H|[]]. discriminate H.
Defined.

(** X8. Enlarging the input list never lowers the structure score. *)
Theorem structure_score_monotone (existingPaths existingPaths' : list string) :
  incl existingPaths existingPaths' ->
  RepoStructure.score (analyzeStructure existingPaths)
  <= RepoStructure.score (analyzeStructure existingPaths').
Proof. apply analyzeStructure_score_mono. Qed.

Lemma structure_score_monotone_witness :
  RepoStructure.score (analyzeStructure ["docs"])
  <= RepoStructure.score (analyzeStructure ["tests/"; "docs"; "notes"]).
Proof.
  apply (structure_score_monotone ["docs"] ["tests/"; "docs"; "notes"]).
  intros p Hp. simpl in Hp |- *. tauto.
Defined.

Lemma structure_recommend_loop (dirs : list DirectoryCheck.t) (acc : list string) :
  length (fold_left recommendStep dirs acc)
  = (length acc + length (List.filter wanted dirs))%nat.
Proof.
  revert acc. induction dirs as [|dir rest IH]; intros acc; simpl; [lia|].
  rewrite IH. unfold recommendStep, wanted.
  destruct (DirectoryCheck.priority dir); simpl; rewrite ?length_app; simpl; lia.
Qed.

(** X9. The structure recommendations hold one line for every missing
    directory whose priority is required or recommended, none for an
    optional one, and end with exactly one of the four closing lines; in
    particular they are never empty. *)
Theorem getStructureRecommendations_shape (structure : RepoStructure.t) :
  length (getStructureRecommendations structure)
  = S (length (List.filter wanted (RepoStructure.missingDirs structure)))
  /\ In (List.last (getStructureRecommendations structure) "") summaries.
Proof.
  unfold getStructureRecommendations. cbv zeta.
  pose proof (structure_recommend_loop (RepoStructure.missingDirs structure) [])
    as Hlen.
  set (lines := fold_left recommendStep (RepoStructure.missingDirs structure) [])
    in *.
  simpl length in Hlen. unfold summaries.
  destruct (RepoStructure.score structure =? 100);
    [|destruct (80 <=? RepoStructure.score structure);
      [|destruct (60 <=? RepoStructure.score structure)]];
    rewrite List.length_app, List.last_last, Hlen; (split; [simpl; lia|]);
    cbn [In]; tauto.
Qed.

(** X10. The recommendations computed for an analysis consist of the
    single line "Structure is complete!" exactly when the analysis reports
    no missing directory. *)
Theorem structure_complete_line (existingPaths : list string) :
  getStructureRecommendations (analyzeStructure existingPaths)
  = ["✅ Structure is complete!"]
  <-> RepoStructure.missingDirs (analyzeStructure existingPaths) = [].
Proof.
  pose proof (structure_score_ends existingPaths) as [H100 _].
  cbv zeta in H100.
  set (result := analyzeStructure existingPaths) in *.
  unfold getStructureRecommendations. cbv zeta. split.
  - intros Hrecs. apply H100.
    destruct (RepoStructure.score result =? 100) eqn:Hs; [lia|].
    exfalso.
    destruct (80 <=? RepoStructure.score result);
      [|destruct (60 <=? RepoStructure.score result)];
      apply (app_inj_tail _ []) in Hrecs as [_ Habs]; discriminate Habs.
  - intros Hmissing. rewrite Hmissing.
    apply H100 in Hmissing. rewrite Hmissing. reflexivity.
Qed.

End StructureScoring.
(** ** Further properties of the community analyzer *)

Section CommunityExtras.
Import Community CommunityForm.

Lemma fileSetOf_ext (existingFiles existingFiles' : list string) :
  (forall name, In name (map normalizeFilePath existingFiles)
                <-> In name (map normalizeFilePath existingFiles')) ->
  fileSetOf existingFiles = fileSetOf existingFiles'.
Proof.
  intros Hsame. unfold fileSetOf. apply set_eq. intros name.
  rewrite !elem_of_list_to_set, !list_elem_of_In. apply Hsame.
Qed.

(** X11. The community analysis depends on its input only through the set
    of normalized file paths: order, repetitions, letter case and the kind
    of slash used in the input are immaterial. *)
Theorem analyzeCommunityStandards_same_set
  (existingFiles existingFiles' : list string) :
  (forall name, In name (map normalizeFilePath existingFiles)
                <-> In name (map normalizeFilePath existingFiles')) ->
  analyzeCommunityStandards existingFiles = analyzeCommunityStandards existingFiles'.
Proof.
  intros Hsame. rewrite !analyzeCommunityStandards_closed.
  now rewrite (fileSetOf_ext _ _ Hsame).
Qed.

Lemma analyzeCommunityStandards_same_set_witness :
  analyzeCommunityStandards [".Well-Known\SECURITY.txt"; "readme.md"; "README.MD"]
  = analyzeCommunityStandards ["README.md"; ".well-known/security.txt"].
Proof.
  apply (analyzeCommunityStandards_same_set
           [".Well-Known\SECURITY.txt"; "readme.md"; "README.MD"]
           ["README.md"; ".well-known/security.txt"]).
  intros name. vm_compute. tauto.
Defined.

Lemma flagsOf_agree (has : string -> bool) :
  agree_on_relevant has (flagsOf (map has relevantNames)).
Proof. intros name Hin. now apply flagsOf_relevant. Qed.

Ltac use_agreement H :=
  rewrite ?(H "license"), ?(H "license.txt"), ?(H "license.md"),
    ?(H "readme.md"), ?(H "contributing.md"), ?(H "code_of_conduct.md"),
    ?(H "security.md"), ?(H "changelog.md"), ?(H "maintainers.md"),
    ?(H ".well-known/security.txt") by (cbn; tauto).

Lemma earnedFormula_agree has has' :
  agree_on_relevant has has' -> earnedFormula has' = earnedFormula has.
Proof. intros H. unfold earnedFormula. use_agreement H. reflexivity. Qed.

Lemma presentFormula_agree has has' :
  agree_on_relevant has has' -> presentFormula has' = presentFormula has.
Proof. intros H. unfold presentFormula. use_agreement H. reflexivity. Qed.

Lemma missingLicenseRows_agree has has' :
  agree_on_relevant has has' -> missingLicenseRows has' = missingLicenseRows has.
Proof. intros H. unfold missingLicenseRows. use_agreement H. reflexivity. Qed.

Lemma entriesFormula_agree has has' :
  agree_on_relevant has has' -> entriesFormula has' = entriesFormula has.
Proof. intros H. unfold entriesFormula. use_agreement H. reflexivity. Qed.

Lemma allEarned_agree has has' :
  agree_on_relevant has has' -> allEarned has' = allEarned has.
Proof. intros H. unfold allEarned. use_agreement H. reflexivity. Qed.

Lemma formulaCheck_true sel missing present :
  formulaCheck sel missing present = true ->
  communityEarnedPoints present = earnedFormula (flagsOf sel)
  /\ present = presentFormula (flagsOf sel).
Proof.
  unfold formulaCheck. intros H. apply andb_prop in H as [He Hp].
  apply bool_decide_eq_true in Hp. split; [lia | assumption].
Qed.

Lemma licenseRowsCheck_true sel missing present :
  licenseRowsCheck sel missing present = true ->
  map FileCheck.path (List.filter isLicenseRow missing)
  = missingLicenseRows (flagsOf sel)
  /\ (length missing + length present)%nat = entriesFormula (flagsOf sel).
Proof.
  unfold licenseRowsCheck. intros H. apply andb_prop in H as [Hr Hn].
  apply bool_decide_eq_true in Hr. apply Nat.eqb_eq in Hn. now split.
Qed.

Lemma fullCheck_true sel missing present :
  fullCheck sel missing present = true ->
  allEarned (flagsOf sel) = true -> missing = [].
Proof.
  unfold fullCheck. intros H Hall. rewrite Hall in H.
  now apply bool_decide_eq_true in H.
Qed.

Lemma community_formulas (has : string -> bool) :
  communityEarnedPoints (presentOf has STANDARD_FILES) = earnedFormula has
  /\ presentOf has STANDARD_FILES = presentFormula has.
Proof.
  destruct (formulaCheck_true (map has relevantNames)
              (missingOf has STANDARD_FILES) (presentOf has STANDARD_FILES))
    as [He Hp].
  { apply community_cases. vm_compute. reflexivity. }
  rewrite He, Hp.
  split; [apply earnedFormula_agree | apply presentFormula_agree];
    apply flagsOf_agree.
Qed.

Lemma community_license_rows (has : string -> bool) :
  map FileCheck.path (List.filter isLicenseRow (missingOf has STANDARD_FILES))
  = missingLicenseRows has
  /\ (length (missingOf has STANDARD_FILES) + length (presentOf has STANDARD_FILES))%nat
     = entriesFormula has.
Proof.
  destruct (licenseRowsCheck_true (map has relevantNames)
              (missingOf has STANDARD_FILES) (presentOf has STANDARD_FILES))
    as [Hr Hn].
  { apply community_cases. vm_compute. reflexivity. }
  rewrite Hr, Hn.
  split; [apply missingLicenseRows_agree | apply entriesFormula_agree];
    apply flagsOf_agree.
Qed.

Lemma community_full (has : string -> bool) :
  allEarned has = true -> missingOf has STANDARD_FILES = [].
Proof.
  intros Hall.
  apply (fullCheck_true (map has relevantNames) _ (presentOf has STANDARD_FILES)).
  - apply community_cases. vm_compute. reflexivity.
  - rewrite <- Hall. apply allEarned_agree, flagsOf_agree.
Qed.

Lemma earnedFormula_full_iff (has : string -> bool) :
  earnedFormula has = 46 <-> allEarned has = true.
Proof.
  unfold earnedFormula, allEarned, points.
  destruct (has "license"), (has "license.txt"), (has "readme.md"),
    (has "contributing.md"), (has "code_of_conduct.md"), (has "security.md"),
    (has "changelog.md"), (has "maintainers.md"), (has ".well-known/security.txt");
    cbn; split; intros H; first [reflexivity | discriminate H].
Qed.

Lemma earnedFormula_bounds (has : string -> bool) : 0 <= earnedFormula has <= 46.
Proof.
  unfold earnedFormula, points.
  destruct (has "license"), (has "license.txt"), (has "readme.md"),
    (has "contributing.md"), (has "code_of_conduct.md"), (has "security.md"),
    (has "changelog.md"), (has "maintainers.md"), (has ".well-known/security.txt");
    cbn; lia.
Qed.

Lemma community_scoreOf_eq (e : Z) : (200 * e + 46) / 92 = scoreOf e.
Proof. reflexivity. Qed.

Lemma community_scoreOf_mono (e e' : Z) : e <= e' -> scoreOf e <= scoreOf e'.
Proof. intros He. unfold scoreOf. apply Z.div_le_mono; lia. Qed.

Lemma community_scoreOf_100 (e : Z) : 0 <= e <= 46 -> (scoreOf e = 100 <-> e = 46).
Proof.
  intros He. unfold scoreOf. split.
  - intros H. assert (e = 46 \/ e <= 45) as [->|Hle] by lia; [reflexivity|].
    assert ((200 * e + 46) / 92 < 100); [|lia].
    apply Z.div_lt_upper_bound; lia.
  - intros ->. reflexivity.
Qed.

Lemma community_points_closed (existingFiles : list string) :
  let has := Js.has (fileSetOf existingFiles) in
  let result := analyzeCommunityStandards existingFiles in
  CommunityStandards.presentFiles result = presentFormula has
  /\ communityEarnedPoints (CommunityStandards.presentFiles result)
     = earnedFormula has
  /\ CommunityStandards.score result = (200 * earnedFormula has + 46) / 92.
Proof.
  cbv zeta. rewrite analyzeCommunityStandards_closed.
  cbn [CommunityStandards.presentFiles CommunityStandards.score].
  destruct (community_formulas (Js.has (fileSetOf existingFiles))) as [He Hp].
  rewrite He. unfold scoreOf. auto.
Qed.

(** X12. The points earned by an analysis and the paths it records are
    given by the membership tests on the normalized input: LICENSE earns
    10 and is recorded when [license] is in the input and [license.txt] is
    not; README.md earns 10; CONTRIBUTING.md, CODE_OF_CONDUCT.md,
    SECURITY.md, CHANGELOG.md and .well-known/security.txt earn 5 each;
    MAINTAINERS.md earns 1.  The score is the earned points out of 46,
    as a rounded percentage. *)
Theorem community_points_formula (existingFiles : list string) :
  let has := Js.has (fileSetOf existingFiles) in
  let result := analyzeCommunityStandards existingFiles in
  CommunityStandards.presentFiles result = presentFormula has
  /\ communityEarnedPoints (CommunityStandards.presentFiles result)
     = earnedFormula has
  /\ CommunityStandards.score result = (200 * earnedFormula has + 46) / 92.
Proof. exact (community_points_closed existingFiles). Qed.

Lemma points_mono (b b' : bool) (w : Z) :
  (b = true -> b' = true) -> 0 <= w -> points b w <= points b' w.
Proof.
  intros Hb Hw. unfold points. destruct b; [rewrite Hb by reflexivity; lia|].
  destruct b'; lia.
Qed.

Lemma earnedFormula_mono (has has' : string -> bool) :
  (forall name, has name = true -> has' name = true) ->
  has' "license.txt" = has "license.txt" ->
  earnedFormula has <= earnedFormula has'.
Proof.
  intros Hsub Htxt. unfold earnedFormula. rewrite Htxt.
  repeat apply Z.add_le_mono; apply points_mono; try lia; try apply Hsub.
  intros H. apply andb_prop in H as [Hl Ht]. now rewrite (Hsub _ Hl), Ht.
Qed.

Lemma fileSetOf_has existingFiles name :
  Js.has (fileSetOf existingFiles) name = true
  <-> In name (map normalizeFilePath existingFiles).
Proof. apply has_list_to_set_In. Qed.

(** X13. Enlarging the input never lowers the community score, provided
    the enlargement does not bring [license.txt] into the normalized
    input. *)
Theorem analyzeCommunityStandards_score_mono
  (existingFiles existingFiles' : list string) :
  incl existingFiles existingFiles' ->
  (In "license.txt" (map normalizeFilePath existingFiles') ->
   In "license.txt" (map normalizeFilePath existingFiles)) ->
  CommunityStandards.score (analyzeCommunityStandards existingFiles)
  <= CommunityStandards.score (analyzeCommunityStandards existingFiles').
Proof.
  intros Hincl Htxt.
  destruct (community_points_closed existingFiles) as (_ & _ & ->).
  destruct (community_points_closed existingFiles') as (_ & _ & ->).
  rewrite !community_scoreOf_eq. apply community_scoreOf_mono.
  assert (Hsub : forall name,
             Js.has (fileSetOf existingFiles) name = true ->
             Js.has (fileSetOf existingFiles') name = true).
  { intros name Hn. apply fileSetOf_has. apply fileSetOf_has in Hn.
    apply in_map_iff in Hn as (p & <- & Hp). apply in_map. now apply Hincl. }
  apply earnedFormula_mono; [assumption|].
  destruct (Js.has (fileSetOf existingFiles) "license.txt") eqn:Hold.
  - now apply Hsub.
  - apply not_true_iff_false. intros Hnew. apply fileSetOf_has in Hnew.
    apply Htxt, fileSetOf_has in Hnew. congruence.
Qed.

Lemma analyzeCommunityStandards_score_mono_witness :
  CommunityStandards.score (analyzeCommunityStandards ["LICENSE.txt"; "LICENSE"])
  <= CommunityStandards.score
       (analyzeCommunityStandards ["LICENSE.txt"; "LICENSE"; "README.md"]).
Proof.
  apply (analyzeCommunityStandards_score_mono
           ["LICENSE.txt"; "LICENSE"] ["LICENSE.txt"; "LICENSE"; "README.md"]).
  - intros p Hp. simpl in Hp |- *. tauto.
  - intros _. vm_compute. tauto.
Defined.

End CommunityExtras.
Section CommunityLicense.
Import Community CommunityForm.

Lemma earnedFormula_license_txt (has : string -> bool) :
  has "license.txt" = true -> earnedFormula has <= 36.
Proof.
  intros Htxt. unfold earnedFormula, points. rewrite Htxt, andb_false_r.
  destruct (has "readme.md"), (has "contributing.md"), (has "code_of_conduct.md"),
    (has "security.md"), (has "changelog.md"), (has "maintainers.md"),
    (has ".well-known/security.txt"); lia.
Qed.

(** X14. An input whose normalized form contains [license.txt] scores at
    most 78, whatever else it contains. *)
Theorem license_txt_caps_score (existingFiles : list string) :
  In "license.txt" (map normalizeFilePath existingFiles) ->
  CommunityStandards.score (analyzeCommunityStandards existingFiles) <= 78.
Proof.
  intros Htxt. apply fileSetOf_has in Htxt.
  destruct (community_points_closed existingFiles) as (_ & _ & ->).
  rewrite community_scoreOf_eq. change 78 with (scoreOf 36).
  apply community_scoreOf_mono.
  now apply earnedFormula_license_txt.
Qed.

Lemma license_txt_caps_score_witness :
  CommunityStandards.score
    (analyzeCommunityStandards
       ["LICENSE"; "LICENSE.txt"; "README.md"; "CONTRIBUTING.md";
        "CODE_OF_CONDUCT.md"; "SECURITY.md"; "CHANGELOG.md"; "MAINTAINERS.md";
        ".well-known/security.txt"]) <= 78.
Proof.
  apply license_txt_caps_score. vm_compute. tauto.
Defined.

Lemma community_score_full (existingFiles : list string) :
  CommunityStandards.score (analyzeCommunityStandards existingFiles) = 100
  <-> allEarned (Js.has (fileSetOf existingFiles)) = true.
Proof.
  destruct (community_points_closed existingFiles) as (_ & _ & ->).
  rewrite community_scoreOf_eq.
  rewrite community_scoreOf_100 by apply earnedFormula_bounds.
  apply earnedFormula_full_iff.
Qed.

(** X15. The community score is 100 exactly when the normalized input
    holds [license] but not [license.txt], and the seven other registry
    files. *)
Theorem community_score_100_iff (existingFiles : list string) :
  CommunityStandards.score (analyzeCommunityStandards existingFiles) = 100
  <-> allEarned (Js.has (fileSetOf existingFiles)) = true.
Proof. exact (community_score_full existingFiles). Qed.

Lemma earnedFormula_compliant (has : string -> bool) :
  has "readme.md" && (has "license" && negb (has "license.txt"))
  && has "security.md" && has "contributing.md" && has "code_of_conduct.md" = true ->
  35 <= earnedFormula has.
Proof.
  unfold earnedFormula, points.
  destruct (has "license"), (has "license.txt"), (has "readme.md"),
    (has "contributing.md"), (has "code_of_conduct.md"), (has "security.md"),
    (has "changelog.md"), (has "maintainers.md"), (has ".well-known/security.txt");
    cbn; intros H; first [discriminate H | lia].
Qed.

(** X16. The compliance check accepts an analysis exactly when the
    normalized input holds [readme.md], [license], [security.md],
    [contributing.md] and [code_of_conduct.md] and does not hold
    [license.txt]. *)
Theorem compliance_of_analysis (existingFiles : list string) :
  let has := Js.has (fileSetOf existingFiles) in
  checkRSRCompliance (analyzeCommunityStandards existingFiles)
  = has "readme.md"
    && (has "license" && negb (has "license.txt"))
    && has "security.md"
    && has "contributing.md"
    && has "code_of_conduct.md".
Proof. exact (checkRSRCompliance_characterised existingFiles). Qed.

(** X17. An analysis that passes the compliance check scores at least 76. *)
Theorem compliance_implies_score (existingFiles : list string) :
  checkRSRCompliance (analyzeCommunityStandards existingFiles) = true ->
  76 <= CommunityStandards.score (analyzeCommunityStandards existingFiles).
Proof.
  intros Hc. rewrite checkRSRCompliance_characterised in Hc. cbv zeta in Hc.
  destruct (community_points_closed existingFiles) as (_ & _ & ->).
  rewrite community_scoreOf_eq. change 76 with (scoreOf 35).
  apply community_scoreOf_mono.
  now apply earnedFormula_compliant.
Qed.

Lemma compliance_implies_score_witness :
  76 <= CommunityStandards.score
          (analyzeCommunityStandards
             ["README.md"; "LICENSE"; "SECURITY.md"; "CONTRIBUTING.md";
              "CODE_OF_CONDUCT.md"]).
Proof.
  apply compliance_implies_score. vm_compute. reflexivity.
Defined.

(** X18. Which license rows an analysis reports missing: none when
    [license.txt] or [license] is in the normalized input, only LICENSE
    when [license.md] alone is, and both LICENSE and LICENSE.txt when no
    alias is.  The two sequences hold 7, 8 or 9 entries accordingly. *)
Theorem missing_license_rows (existingFiles : list string) :
  let has := Js.has (fileSetOf existingFiles) in
  let result := analyzeCommunityStandards existingFiles in
  map FileCheck.path
    (List.filter isLicenseRow (CommunityStandards.missingFiles result))
  = (if has "license.txt" then []
     else if has "license" then []
     else if has "license.md" then ["LICENSE"]
     else ["LICENSE"; "LICENSE.txt"])
  /\ (length (CommunityStandards.missingFiles result)
      + length (CommunityStandards.presentFiles result))%nat
     = (if has "license.txt" then 7
        else if has "license" || has "license.md" then 8
        else 9)%nat.
Proof.
  cbv zeta. rewrite analyzeCommunityStandards_closed.
  cbn [CommunityStandards.presentFiles CommunityStandards.missingFiles].
  apply community_license_rows.
Qed.

Lemma has_cons_other (p : string) (existingFiles : list string) (name : string) :
  name <> normalizeFilePath p ->
  Js.has (fileSetOf (p :: existingFiles)) name
  = Js.has (fileSetOf existingFiles) name.
Proof.
  intros Hne. unfold fileSetOf. rewrite !has_list_to_set. simpl.
  apply String.eqb_neq in Hne. now rewrite Hne.
Qed.

(** X19. A file whose normalized path is [license.md] changes neither the
    recorded present paths nor the score. *)
Theorem license_md_is_ignored (p : string) (existingFiles : list string) :
  normalizeFilePath p = "license.md" ->
  CommunityStandards.presentFiles (analyzeCommunityStandards (p :: existingFiles))
  = CommunityStandards.presentFiles (analyzeCommunityStandards existingFiles)
  /\ CommunityStandards.score (analyzeCommunityStandards (p :: existingFiles))
     = CommunityStandards.score (analyzeCommunityStandards existingFiles).
Proof.
  intros Hp.
  destruct (community_points_closed (p :: existingFiles)) as (-> & _ & ->).
  destruct (community_points_closed existingFiles) as (-> & _ & ->).
  unfold presentFormula, earnedFormula.
  rewrite !(has_cons_other p) by (rewrite Hp; discriminate).
  split; reflexivity.
Qed.

Lemma license_md_is_ignored_witness :
  CommunityStandards.score (analyzeCommunityStandards ["License.MD"; "README.md"])
  = CommunityStandards.score (analyzeCommunityStandards ["README.md"]).
Proof.
  apply (license_md_is_ignored "License.MD" ["README.md"]). reflexivity.
Defined.

End CommunityLicense.
Section CommunityReporting.
Import Community CommunityForm.

Lemma community_recommend_loop (files : list FileCheck.t) (acc : list string) :
  length (fold_left recommendStep files acc)
  = (length acc + length (List.filter wanted files))%nat.
Proof.
  revert acc. induction files as [|file rest IH]; intros acc; simpl; [lia|].
  rewrite IH. unfold recommendStep, wanted.
  destruct (FileCheck.priority file); simpl; rewrite ?List.length_app; simpl; lia.
Qed.

(** X20. The community recommendations hold one line for every missing
    file whose priority is required or recommended, none for an optional
    one, and end with exactly one of the four closing lines; in particular
    they are never empty. *)
Theorem getCommunityRecommendations_shape (standards : CommunityStandards.t) :
  length (getCommunityRecommendations standards)
  = S (length (List.filter wanted (CommunityStandards.missingFiles standards)))
  /\ In (List.last (getCommunityRecommendations standards) "") summaries.
Proof.
  unfold getCommunityRecommendations. cbv zeta.
  pose proof (community_recommend_loop
                (CommunityStandards.missingFiles standards) []) as Hlen.
  set (lines := fold_left recommendStep
                  (CommunityStandards.missingFiles standards) []) in *.
  simpl length in Hlen. unfold summaries.
  destruct (CommunityStandards.score standards =? 100);
    [|destruct (80 <=? CommunityStandards.score standards);
      [|destruct (60 <=? CommunityStandards.score standards)]];
    rewrite List.length_app, List.last_last, Hlen; (split; [simpl; lia|]);
    cbn [In]; tauto.
Qed.

Lemma community_complete_line_iff (standards : CommunityStandards.t) :
  getCommunityRecommendations standards = ["✅ Community standards are complete!"]
  <-> CommunityStandards.score standards = 100
      /\ fold_left recommendStep (CommunityStandards.missingFiles standards) [] = [].
Proof.
  unfold getCommunityRecommendations. cbv zeta.
  generalize (fold_left recommendStep (CommunityStandards.missingFiles standards) []).
  generalize (CommunityStandards.score standards).
  intros score lines. split.
  - intros Hrecs. destruct (score =? 100) eqn:Hs.
    + apply (app_inj_tail lines []) in Hrecs as [Hl _]. split; [lia | assumption].
    + exfalso. destruct (80 <=? score); [|destruct (60 <=? score)];
        apply (app_inj_tail _ []) in Hrecs as [_ Habs]; discriminate Habs.
  - intros [-> ->]. reflexivity.
Qed.

Lemma analysis_missing_full (existingFiles : list string) :
  allEarned (Js.has (fileSetOf existingFiles)) = true ->
  CommunityStandards.missingFiles (analyzeCommunityStandards existingFiles) = [].
Proof.
  intros Hall. rewrite analyzeCommunityStandards_closed.
  cbn [CommunityStandards.missingFiles]. now apply community_full.
Qed.

(** X21. The recommendations computed for an analysis consist of the
    single line "Community standards are complete!" exactly when the
    normalized input holds [license] but not [license.txt], and the seven
    other registry files. *)
Theorem community_complete_line (existingFiles : list string) :
  getCommunityRecommendations (analyzeCommunityStandards existingFiles)
  = ["✅ Community standards are complete!"]
  <-> allEarned (Js.has (fileSetOf existingFiles)) = true.
Proof.
  rewrite community_complete_line_iff, community_score_full. split.
  - intros [Hall _]. exact Hall.
  - intros Hall. split; [exact Hall|].
    rewrite (analysis_missing_full _ Hall). reflexivity.
Qed.

Lemma knows_mono (present present' : list string) (name : string) :
  incl (map normalizeFilePath present) (map normalizeFilePath present') ->
  knows present name = true -> knows present' name = true.
Proof.
  unfold knows. intros Hincl Hk.
  apply existsb_exists in Hk as (x & Hin & Heq).
  apply existsb_exists. exists x. split; [now apply Hincl | assumption].
Qed.

(** X22. The compliance check reads only the recorded present paths, up
    to normalization: a record whose normalized present paths include
    those of a compliant record is compliant as well. *)
Theorem checkRSRCompliance_mono (standards standards' : CommunityStandards.t) :
  incl (map normalizeFilePath (CommunityStandards.presentFiles standards))
       (map normalizeFilePath (CommunityStandards.presentFiles standards')) ->
  checkRSRCompliance standards = true ->
  checkRSRCompliance standards' = true.
Proof.
  intros Hincl. rewrite !checkRSRCompliance_knows. cbv zeta.
  set (present := CommunityStandards.presentFiles standards) in *.
  set (present' := CommunityStandards.presentFiles standards') in *.
  intros H.
  repeat (apply andb_prop in H as [H ?]).
  apply orb_prop in H3.
  rewrite (knows_mono present present' "readme.md"),
    (knows_mono present present' "security.md"),
    (knows_mono present present' "contributing.md"),
    (knows_mono present present' "code_of_conduct.md") by assumption.
  destruct H3 as [Hl|Hl]; rewrite (knows_mono present present' _ Hincl Hl);
    rewrite ?orb_true_r; reflexivity.
Qed.

Lemma checkRSRCompliance_mono_witness :
  checkRSRCompliance
    (CommunityStandards.mk []
       ["readme.MD"; "license.TXT"; "security.md"; "contributing.md";
        "code_of_conduct.md"; "notes.txt"] 0) = true.
Proof.
  apply (checkRSRCompliance_mono
           (CommunityStandards.mk []
              ["README.md"; "LICENSE.txt"; "SECURITY.md"; "CONTRIBUTING.md";
               "CODE_OF_CONDUCT.md"] 100)).
  - intros name Hn. vm_compute in Hn |- *. tauto.
  - vm_compute. reflexivity.
Defined.

End CommunityReporting.
(** ** Repository context *)

Section RepositoryContext.
Import Index.

Lemma prefix_empty (s : string) : String.prefix "" s = true.
Proof. destruct s; reflexivity. Qed.

Lemma includes_char (c sep : ascii) (s : string) :
  Js.includes (String c s) (String sep EmptyString)
  = Ascii.eqb c sep || Js.includes s (String sep EmptyString).
Proof.
  cbn [Js.includes String.prefix]. destruct (ascii_dec sep c) as [->|Hne].
  - rewrite Ascii.eqb_refl, prefix_empty. reflexivity.
  - apply not_eq_sym in Hne. apply Ascii.eqb_neq in Hne. rewrite Hne. reflexivity.
Qed.

Lemma split_not_nil (s : string) (sep : ascii) : Js.split s sep <> [].
Proof.
  destruct s as [|c s]; simpl; [discriminate|].
  destruct (Ascii.eqb c sep); [discriminate|].
  destruct (Js.split s sep); discriminate.
Qed.

Lemma split_pieces (s : string) (sep : ascii) :
  Forall (fun piece => Js.includes piece (String sep EmptyString) = false)
    (Js.split s sep).
Proof.
  induction s as [|c s IH]; simpl.
  - repeat constructor.
  - destruct (Ascii.eqb c sep) eqn:Hc.
    + constructor; [reflexivity | assumption].
    + destruct (Js.split s sep) as [|piece pieces]; [repeat constructor|].
      * rewrite includes_char, Hc. reflexivity.
      * inversion IH as [|? ? Hp Hps]; subst. constructor; [|assumption].
        rewrite includes_char, Hc. exact Hp.
Qed.

Lemma split_app_sep (p rest : string) (sep : ascii) :
  Js.includes p (String sep EmptyString) = false ->
  Js.split (p ++ String sep rest) sep = p :: Js.split rest sep.
Proof.
  induction p as [|c p IH]; intros Hp.
  - simpl. rewrite Ascii.eqb_refl. reflexivity.
  - rewrite includes_char in Hp. apply orb_false_elim in Hp as [Hc Hp].
    simpl. rewrite Hc, (IH Hp). reflexivity.
Qed.

Lemma split_slash_free (p : string) (sep : ascii) :
  Js.includes p (String sep EmptyString) = false -> Js.split p sep = [p].
Proof.
  induction p as [|c p IH]; intros Hp; [reflexivity|].
  rewrite includes_char in Hp. apply orb_false_elim in Hp as [Hc Hp].
  simpl. rewrite Hc, (IH Hp). reflexivity.
Qed.

Lemma split_join (parts : list string) (sep : ascii) :
  parts <> [] ->
  Forall (fun p => Js.includes p (String sep EmptyString) = false) parts ->
  Js.split (Js.join parts (String sep EmptyString)) sep = parts.
Proof.
  induction parts as [|p rest IH]; intros Hne Hall; [congruence|].
  inversion Hall as [|? ? Hp Hrest]; subst.
  destruct rest as [|q rest].
  - simpl. now apply split_slash_free.
  - change (Js.join (p :: q :: rest) (String sep EmptyString))
      with (p ++ String sep (Js.join (q :: rest) (String sep EmptyString))).
    rewrite split_app_sep by assumption.
    rewrite IH by (assumption || discriminate). reflexivity.
Qed.

Lemma split_app_trailing (s : string) (sep : ascii) :
  Js.split (s ++ String sep EmptyString) sep
  = (Js.split s sep ++ [EmptyString])%list.
Proof.
  induction s as [|c s IH]; simpl.
  - rewrite Ascii.eqb_refl. reflexivity.
  - rewrite IH. destruct (Ascii.eqb c sep); [reflexivity|].
    pose proof (split_not_nil s sep).
    destruct (Js.split s sep); [congruence | reflexivity].
Qed.

(** X23. A repository context, when one is returned, names a known
    platform, and its owner and repository name are non-empty and hold no
    slash; the current path starts with a slash. *)
Theorem getRepositoryContext_wellformed
  (location : Js.Location) (context : PlatformContext.t) :
  getRepositoryContext location = Some context ->
  PlatformContext.platform context = detectPlatform location
  /\ PlatformContext.platform context <> unknown
  /\ PlatformContext.repoOwner context <> ""
  /\ PlatformContext.repoName context <> ""
  /\ Js.includes (PlatformContext.repoOwner context) "/" = false
  /\ Js.includes (PlatformContext.repoName context) "/" = false
  /\ String.prefix "/" (PlatformContext.currentPath context) = true.
Proof.
  unfold getRepositoryContext. cbv zeta.
  set (nonEmpty := fun p : string => Nat.ltb 0 (String.length p)).
  pose proof (split_pieces (Js.pathname location) "/") as Hpieces.
  assert (Hparts : Forall (fun p => p <> "" /\ Js.includes p "/" = false)
                     (List.filter nonEmpty (Js.split (Js.pathname location) "/"))).
  { apply List.Forall_forall. intros p Hin. apply filter_In in Hin as [Hin Hne].
    split.
    - intros ->. discriminate Hne.
    - exact (proj1 (List.Forall_forall _ _) Hpieces p Hin). }
  destruct (List.filter nonEmpty (Js.split (Js.pathname location) "/"))
    as [|owner [|name rest]].
  - destruct (detectPlatform location); discriminate.
  - destruct (detectPlatform location); discriminate.
  - inversion Hparts as [|? ? [Ho Hos] Hrest]; subst.
    inversion Hrest as [|? ? [Hn Hns] _]; subst.
    cbn [length Nat.ltb Nat.leb nth skipn].
    destruct (detectPlatform location) eqn:Hplat; intros H;
      try discriminate H; injection H as <-;
      cbn [PlatformContext.platform PlatformContext.repoOwner
           PlatformContext.repoName PlatformContext.currentPath];
      repeat split; try assumption; try discriminate; try reflexivity;
      apply prefix_empty.
Qed.

Lemma getRepositoryContext_wellformed_witness :
  PlatformContext.repoOwner
    (PlatformContext.mk github "owner" "repo" "/tree/main") <> ""
  /\ getRepositoryContext (Js.mkLocation "GitHub.com" "/owner//repo/tree/main/")
     = Some (PlatformContext.mk github "owner" "repo" "/tree/main").
Proof.
  assert (H : getRepositoryContext
                (Js.mkLocation "GitHub.com" "/owner//repo/tree/main/")
              = Some (PlatformContext.mk github "owner" "repo" "/tree/main"))
    by reflexivity.
  split; [|exact H].
  exact (proj1 (proj2 (proj2 (getRepositoryContext_wellformed _ _ H)))).
Defined.

Lemma filter_nonempty_all (parts : list string) :
  Forall (fun p => p <> "") parts ->
  List.filter (fun p => Nat.ltb 0 (String.length p)) parts = parts.
Proof.
  induction 1 as [|p parts Hp _ IH]; simpl; [reflexivity|].
  rewrite IH. destruct p; [congruence | reflexivity].
Qed.

(** X24. Parsing a pathname built from an owner, a repository name and
    further segments gives these back: when the platform is known and the
    segments are non-empty and hold no slash, the context for
    ["/owner/name/seg1/.../segn"] has that owner, that name and the
    current path ["/seg1/.../segn"]. *)
Theorem getRepositoryContext_roundtrip
  (host owner name : string) (rest : list string) :
  detectPlatform (Js.mkLocation host "") <> unknown ->
  Forall (fun p => p <> "") (owner :: name :: rest) ->
  Forall (fun p => Js.includes p "/" = false) (owner :: name :: rest) ->
  getRepositoryContext
    (Js.mkLocation host ("/" ++ Js.join (owner :: name :: rest) "/"))
  = Some (PlatformContext.mk (detectPlatform (Js.mkLocation host ""))
            owner name ("/" ++ Js.join rest "/")).
Proof.
  intros Hplat Hne Hfree. unfold getRepositoryContext. cbv zeta.
  cbn [Js.pathname].
  change (detectPlatform
            (Js.mkLocation host ("/" ++ Js.join (owner :: name :: rest) "/")))
    with (detectPlatform (Js.mkLocation host "")).
  change ("/" ++ Js.join (owner :: name :: rest) "/")
    with ("" ++ String "/" (Js.join (owner :: name :: rest) "/")).
  rewrite split_app_sep by reflexivity.
  rewrite split_join by (assumption || discriminate).
  remember (owner :: name :: rest) as parts eqn:Hparts.
  cbn [List.filter String.length Nat.ltb Nat.leb].
  rewrite filter_nonempty_all by assumption. subst parts.
  cbn [length Nat.ltb Nat.leb nth skipn].
  destruct (detectPlatform (Js.mkLocation host "")) eqn:Hp;
    first [reflexivity | congruence].
Qed.

Lemma getRepositoryContext_roundtrip_witness :
  getRepositoryContext (Js.mkLocation "gitlab.com" "/group/project/-/issues")
  = Some (PlatformContext.mk gitlab "group" "project" "/-/issues").
Proof.
  apply (getRepositoryContext_roundtrip "gitlab.com" "group" "project"
           ["-"; "issues"]).
  - discriminate.
  - repeat constructor; discriminate.
  - repeat constructor.
Defined.

(** X25. A slash in front of the pathname or after it does not change the
    repository context. *)
Theorem getRepositoryContext_outer_slashes (host path : string) :
  getRepositoryContext (Js.mkLocation host ("/" ++ path))
  = getRepositoryContext (Js.mkLocation host path)
  /\ getRepositoryContext (Js.mkLocation host (path ++ "/"))
     = getRepositoryContext (Js.mkLocation host path).
Proof.
  unfold getRepositoryContext. cbv zeta. cbn [Js.pathname].
  change (detectPlatform (Js.mkLocation host ("/" ++ path)))
    with (detectPlatform (Js.mkLocation host path)).
  change (detectPlatform (Js.mkLocation host (path ++ "/")))
    with (detectPlatform (Js.mkLocation host path)).
  split.
  - change (Js.split ("/" ++ path) "/") with ("" :: Js.split path "/").
    cbn [List.filter String.length Nat.ltb Nat.leb]. reflexivity.
  - rewrite split_app_trailing, !List.filter_app.
    cbn [List.filter String.length Nat.ltb Nat.leb].
    rewrite !app_nil_r. reflexivity.
Qed.

End RepositoryContext.
